(** * wachat: the WhatsApp webhook bridge of [app.py]

    A shallow embedding of the message normaliser, the media fetcher, the
    response composer, the outbound senders and the two webhook handlers of
    [src/app.py], followed by the properties of the specification.

    Python values that come from the webhook JSON are kept dynamically typed
    ([json]); a Python [str] is a sequence of Unicode code points; code run
    under [try/except] lives in an exception monad; the network is a record
    of oracles and every handler returns the list of outbound calls it made. *)

From Stdlib Require Import List ZArith NArith Ascii Bool Lia PrimFloat.
From Stdlib Require Strings.String Strings.Byte Decimal.
Import ListNotations String.StringSyntax.
Abbreviation string := String.string.
Abbreviation byte := Byte.byte.

Set Warnings "-register-all".
Local Open Scope list_scope.

(* ================================================================= *)
(** ** Python strings *)

(** A Python [str]: the sequence of its code points. *)
Definition pystr := list N.

(** Decoder for the UTF-8 bytes of the literals written in this file. *)
Fixpoint utf8_decode (bs : list N) : pystr :=
  match bs with
  | [] => []
  | b0 :: r0 =>
      if (b0 <? 128)%N then b0 :: utf8_decode r0
      else if (b0 <? 224)%N then
        match r0 with
        | b1 :: r1 => ((b0 - 192) * 64 + (b1 - 128))%N :: utf8_decode r1
        | _ => []
        end
      else if (b0 <? 240)%N then
        match r0 with
        | b1 :: b2 :: r2 =>
            ((b0 - 224) * 4096 + (b1 - 128) * 64 + (b2 - 128))%N :: utf8_decode r2
        | _ => []
        end
      else
        match r0 with
        | b1 :: b2 :: b3 :: r3 =>
            ((b0 - 240) * 262144 + (b1 - 128) * 4096 + (b2 - 128) * 64 + (b3 - 128))%N
              :: utf8_decode r3
        | _ => []
        end
  end.

Fixpoint string_bytes (s : string) : list N :=
  match s with
  | String.EmptyString => []
  | String.String a r => N_of_ascii a :: string_bytes r
  end.

(** [lit "..."] is the Python string written as that literal. *)
Definition lit (s : string) : pystr := utf8_decode (string_bytes s).
Arguments lit s%_string_scope.

Fixpoint pystr_eqb (a b : pystr) : bool :=
  match a, b with
  | [], [] => true
  | x :: a', y :: b' => (x =? y)%N && pystr_eqb a' b'
  | _, _ => false
  end.

(** [bool(s)] for a string, list or dict: non-empty. *)
Definition nonempty {A} (l : list A) : bool :=
  match l with [] => false | _ :: _ => true end.

(** [str.isspace] on one code point (the whitespace set of [str.strip()]). *)
Definition isspace (c : N) : bool :=
  ((9 <=? c) && (c <=? 13) || (28 <=? c) && (c <=? 32) || (c =? 133) || (c =? 160)
   || (c =? 5760) || (8192 <=? c) && (c <=? 8202) || (c =? 8232) || (c =? 8233)
   || (c =? 8239) || (c =? 8287) || (c =? 12288))%N.

Fixpoint lstrip (s : pystr) : pystr :=
  match s with
  | [] => []
  | c :: r => if isspace c then lstrip r else s
  end.

Definition rstrip (s : pystr) : pystr := rev (lstrip (rev s)).

(** [s.strip()] *)
Definition strip (s : pystr) : pystr := rstrip (lstrip s).

(** [sep.join(parts)] *)
Fixpoint join (sep : pystr) (parts : list pystr) : pystr :=
  match parts with
  | [] => []
  | [p] => p
  | p :: rest => p ++ sep ++ join sep rest
  end.

Fixpoint uint_chars (u : Decimal.uint) : pystr :=
  match u with
  | Decimal.Nil => []
  | Decimal.D0 r => 48%N :: uint_chars r
  | Decimal.D1 r => 49%N :: uint_chars r
  | Decimal.D2 r => 50%N :: uint_chars r
  | Decimal.D3 r => 51%N :: uint_chars r
  | Decimal.D4 r => 52%N :: uint_chars r
  | Decimal.D5 r => 53%N :: uint_chars r
  | Decimal.D6 r => 54%N :: uint_chars r
  | Decimal.D7 r => 55%N :: uint_chars r
  | Decimal.D8 r => 56%N :: uint_chars r
  | Decimal.D9 r => 57%N :: uint_chars r
  end.

(** [str(n)] for a length. *)
Definition str_nat (n : nat) : pystr := uint_chars (Nat.to_uint n).

(** [str(z)] for an integer. *)
Definition str_int (z : Z) : pystr :=
  match Z.to_int z with
  | Decimal.Pos u => uint_chars u
  | Decimal.Neg u => 45%N :: uint_chars u
  end.

(** [base64.b64encode(content).decode('utf-8')] *)
Definition b64_char (n : N) : N :=
  if (n <? 26)%N then (65 + n)%N
  else if (n <? 52)%N then (97 + (n - 26))%N
  else if (n <? 62)%N then (48 + (n - 52))%N
  else if (n =? 62)%N then 43%N else 47%N.

Fixpoint b64_groups (bs : list N) : pystr :=
  match bs with
  | [] => []
  | [a] => [b64_char (a / 4); b64_char ((a mod 4) * 16); 61; 61]%N
  | [a; b] =>
      [b64_char (a / 4); b64_char ((a mod 4) * 16 + b / 16);
       b64_char ((b mod 16) * 4); 61]%N
  | a :: b :: c :: rest =>
      [b64_char (a / 4); b64_char ((a mod 4) * 16 + b / 16);
       b64_char ((b mod 16) * 4 + c / 64); b64_char (c mod 64)]%N
        ++ b64_groups rest
  end.

Definition b64encode (content : list byte) : pystr :=
  b64_groups (map Byte.to_N content).

(* ================================================================= *)
(** ** JSON values and Python's dynamic operations on them *)

(** What [json.loads] builds: [None], [bool], [int], [float], [str], [list]
    and [dict] (string keys, in insertion order). *)
Inductive json : Type :=
| JNull
| JBool (b : bool)
| JInt (z : Z)
| JFloat (f : float)
| JStr (s : pystr)
| JArr (items : list json)
| JObj (fields : list (pystr * json)).

Definition dict := list (pystr * json).

Definition jstr (s : string) : json := JStr (lit s).
Arguments jstr s%_string_scope.

(** Exceptions, by class, with the text [str(e)] gives. *)
Inductive exn_class :=
| AttributeError | TypeError | KeyError | IndexError | ValueError | DecodeError
| HTTPError | RequestError | APIError.

Record exn := Exn { exn_cls : exn_class; exn_str : pystr }.

Inductive result (A : Type) : Type :=
| Ok (a : A)
| Raise (e : exn).
Arguments Ok {A} a.
Arguments Raise {A} e.

Declare Scope py_scope.
Delimit Scope py_scope with py.
Notation "x <- e ; k" :=
  (match e with Ok x => k | Raise err => Raise err end)
    (at level 61, e at next level, right associativity) : py_scope.
Open Scope py_scope.

(** The class name Python prints for a value. *)
Definition type_name (v : json) : pystr :=
  match v with
  | JNull => lit "NoneType"
  | JBool _ => lit "bool"
  | JInt _ => lit "int"
  | JFloat _ => lit "float"
  | JStr _ => lit "str"
  | JArr _ => lit "list"
  | JObj _ => lit "dict"
  end.

Definition raise_of {A} (c : exn_class) (msg : pystr) : result A := Raise (Exn c msg).

(** First binding of a key. *)
Fixpoint assoc (k : pystr) (d : dict) : option json :=
  match d with
  | [] => None
  | (k', v) :: rest => if pystr_eqb k' k then Some v else assoc k rest
  end.

(** [d.get(k, default)] on a dict. *)
Definition dict_get (d : dict) (k : string) (default : json) : json :=
  match assoc (lit k) d with
  | Some v => v
  | None => default
  end.
Arguments dict_get d k%_string_scope default.

(** [d[k] = v] on a dict. *)
Fixpoint dict_set (d : dict) (k : pystr) (v : json) : dict :=
  match d with
  | [] => [(k, v)]
  | (k', v') :: rest =>
      if pystr_eqb k' k then (k', v) :: rest else (k', v') :: dict_set rest k v
  end.

(** [x.get(k, default)] on any value: only a dict has the method. *)
Definition py_get (x : json) (k : string) (default : json) : result json :=
  match x with
  | JObj d => Ok (dict_get d k default)
  | _ => raise_of AttributeError
           (lit "'" ++ type_name x ++ lit "' object has no attribute 'get'")
  end.
Arguments py_get x k%_string_scope default.

(** [bool(x)] *)
Definition truthy (x : json) : bool :=
  match x with
  | JNull => false
  | JBool b => b
  | JInt z => negb (z =? 0)%Z
  | JFloat f => negb (PrimFloat.eqb f PrimFloat.zero)
  | JStr s => nonempty s
  | JArr l => nonempty l
  | JObj d => nonempty d
  end.

(** [x[0]] *)
Definition py_index0 (x : json) : result json :=
  match x with
  | JArr (v :: _) => Ok v
  | JArr [] => raise_of IndexError (lit "list index out of range")
  | JStr (c :: _) => Ok (JStr [c])
  | JStr [] => raise_of IndexError (lit "string index out of range")
  | JObj _ => raise_of KeyError (lit "0")
  | _ => raise_of TypeError (lit "'" ++ type_name x ++ lit "' object is not subscriptable")
  end.

(** The items [for c in x] visits. *)
Definition py_iter (x : json) : result (list json) :=
  match x with
  | JArr l => Ok l
  | JStr s => Ok (map (fun c => JStr [c]) s)
  | JObj d => Ok (map (fun kv => JStr (fst kv)) d)
  | _ => raise_of TypeError (lit "'" ++ type_name x ++ lit "' object is not iterable")
  end.

(** [len(x)] *)
Definition py_len (x : json) : result nat :=
  match x with
  | JArr l => Ok (length l)
  | JStr s => Ok (length s)
  | JObj d => Ok (length d)
  | _ => raise_of TypeError (lit "object of type '" ++ type_name x ++ lit "' has no len()")
  end.

(** [x == "literal"] *)
Definition is_str (x : json) (s : string) : bool :=
  match x with
  | JStr t => pystr_eqb t (lit s)
  | _ => false
  end.
Arguments is_str x s%_string_scope.

(* ================================================================= *)
(** ** The world outside the process *)

(** What [requests] hands back: the status code, the body as [.json()] reads
    it ([None] when the body is not JSON) and the raw [.content]. *)
Record response := {
  status_code : Z;
  response_json : option json;
  response_content : list byte
}.

(** A call through [requests] returns a response or raises a
    [RequestException] (connection, timeout, invalid URL or body). *)
Inductive http_outcome :=
| Responded (r : response)
| RequestException.

(** [response.raise_for_status()] raises [HTTPError] on 4xx and 5xx. *)
Definition raises_for_status (r : response) : bool :=
  ((400 <=? status_code r) && (status_code r <? 600))%Z.

(** [openai_client.responses.create]: it raises, or returns a response whose
    [output_text] is a string ([Some]) or cannot be read as one ([None]). *)
Inductive ai_outcome :=
| AiRaises
| AiResponse (output_text : option pystr).

(** The configuration read at start-up, the parts of the Python runtime that
    are not spelled out here, and the remote services.  The [Authorization]
    and [Content-Type] headers are the same on every request and are left
    out of the oracles' arguments. *)
Record World := {
  VERIFY_TOKEN : pystr;
  PHONE_NUMBER_ID : pystr;
  (** [str(x)] when [x] is a float, a list or a dict *)
  py_repr : json -> pystr;
  (** [float(x)] when [x] is a bool, an int or a str *)
  float_conv : json -> result float;
  (** [requests.get(url, headers=...)] *)
  requests_get : json -> http_outcome;
  (** [requests.post(WHATSAPP_API_URL, headers=..., json=payload)] *)
  requests_post : json -> http_outcome;
  (** [openai_client.responses.create(model="gpt-4.1", input=input_data)] *)
  responses_create : json -> ai_outcome
}.

(** The outbound calls a handler makes, in order. *)
Inductive call :=
| HttpGet (url : json)
| HttpPost (url : pystr) (payload : json)
| AiCreate (input_data : json).

(** [WHATSAPP_API_URL] *)
Definition WHATSAPP_API_URL (w : World) : pystr :=
  lit "https://graph.facebook.com/v22.0/" ++ PHONE_NUMBER_ID w ++ lit "/messages".

(** [str(x)], as an f-string formats [{x}]. *)
Definition py_str (w : World) (x : json) : pystr :=
  match x with
  | JNull => lit "None"
  | JBool true => lit "True"
  | JBool false => lit "False"
  | JInt z => str_int z
  | JStr s => s
  | JFloat _ | JArr _ | JObj _ => py_repr w x
  end.

(** [float(x)] *)
Definition py_float (w : World) (x : json) : result float :=
  match x with
  | JFloat f => Ok f
  | JBool _ | JInt _ | JStr _ => float_conv w x
  | JNull | JArr _ | JObj _ =>
      raise_of TypeError
        (lit "float() argument must be a string or a real number, not '"
           ++ type_name x ++ lit "'")
  end.

(* ================================================================= *)
(** ** Message normaliser: [extract_message_data] *)

(** The dict [result]: keys ["from"], ["message_id"], ["type"],
    ["media_data"] and ["text"] (every branch sets it). *)
Record message_data := {
  msg_from : json;
  msg_id : json;
  msg_type : json;
  media_data : option dict;
  msg_text : json
}.

(** One turn of the loop over the contacts: the name to append. *)
Definition contact_full_name (w : World) (contact : json) : result pystr :=
  name <- py_get contact "name" (JObj []);
  first_name <- py_get name "first_name" (jstr "");
  last_name <- py_get name "last_name" (jstr "");
  Ok (strip (py_str w first_name ++ lit " " ++ py_str w last_name)).

(** The loop [for contact in contacts]: the list [contact_names] it leaves. *)
Fixpoint collect_contact_names (w : World) (contacts : list json) : result (list pystr) :=
  match contacts with
  | [] => Ok []
  | contact :: rest =>
      full_name <- contact_full_name w contact;
      names <- collect_contact_names w rest;
      Ok (if nonempty full_name then full_name :: names else names)
  end.

(** Lines 380-466: the record built from [message = messages[0]]. *)
Definition extract_from_message (w : World) (message : json) : result message_data :=
  message_type <- py_get message "type" JNull;
  from <- py_get message "from" JNull;
  id <- py_get message "id" JNull;
  let result md txt :=
    {| msg_from := from; msg_id := id; msg_type := message_type;
       media_data := md; msg_text := txt |} in
  if is_str message_type "text" then
    t <- py_get message "text" (JObj []);
    body <- py_get t "body" (jstr "");
    Ok (result None body)
  else if is_str message_type "sticker" then
    sticker_data <- py_get message "sticker" (JObj []);
    sid <- py_get sticker_data "id" JNull;
    mime <- py_get sticker_data "mime_type" JNull;
    animated <- py_get sticker_data "animated" (JBool false);
    Ok (result
          (Some [(lit "type", jstr "sticker"); (lit "id", sid);
                 (lit "mime_type", mime); (lit "animated", animated)])
          (jstr "📍 Usuario envió un sticker"))
  else if is_str message_type "image" then
    image_data <- py_get message "image" (JObj []);
    iid <- py_get image_data "id" JNull;
    mime <- py_get image_data "mime_type" JNull;
    caption <- py_get image_data "caption" (jstr "");
    Ok (result
          (Some [(lit "type", jstr "image"); (lit "id", iid);
                 (lit "mime_type", mime); (lit "caption", caption)])
          (jstr "📷 Usuario envió una imagen"))
  else if is_str message_type "audio" then
    audio_data <- py_get message "audio" (JObj []);
    aid <- py_get audio_data "id" JNull;
    mime <- py_get audio_data "mime_type" JNull;
    Ok (result
          (Some [(lit "type", jstr "audio"); (lit "id", aid); (lit "mime_type", mime)])
          (jstr "🎵 Usuario envió un audio"))
  else if is_str message_type "document" then
    doc_data <- py_get message "document" (JObj []);
    did <- py_get doc_data "id" JNull;
    filename <- py_get doc_data "filename" (jstr "Archivo sin nombre");
    mime <- py_get doc_data "mime_type" JNull;
    caption <- py_get doc_data "caption" (jstr "");
    Ok (result
          (Some [(lit "type", jstr "document"); (lit "id", did);
                 (lit "filename", filename); (lit "mime_type", mime);
                 (lit "caption", caption)])
          (jstr "📄 Usuario envió un documento"))
  else if is_str message_type "location" then
    location <- py_get message "location" (JObj []);
    lat <- py_get location "latitude" (jstr "N/A");
    lng <- py_get location "longitude" (jstr "N/A");
    name <- py_get location "name" (jstr "");
    address <- py_get location "address" (jstr "");
    Ok (result
          (Some [(lit "type", jstr "location"); (lit "latitude", lat);
                 (lit "longitude", lng); (lit "name", name); (lit "address", address)])
          (jstr "📍 Usuario compartió ubicación"))
  else if is_str message_type "contacts" then
    contacts <- py_get message "contacts" (JArr []);
    items <- py_iter contacts;
    contact_names <- collect_contact_names w items;
    n <- py_len contacts;
    Ok (result
          (Some [(lit "type", jstr "contacts"); (lit "contacts", contacts);
                 (lit "contact_names",
                  JStr (if nonempty contact_names
                        then join (lit ", ") contact_names
                        else lit "Sin nombres"))])
          (JStr (lit "👤 Usuario compartió " ++ str_nat n ++ lit " contacto(s)")))
  else
    Ok (result None
          (JStr (lit "❓ Usuario envió un mensaje de tipo: " ++ py_str w message_type))).

(** Lines 365-379 followed by the above, inside the [try]. *)
Definition extract_message_data_try (w : World) (webhook_data : json)
  : result (option message_data) :=
  entry <- py_get webhook_data "entry" (JArr []);
  if negb (truthy entry) then Ok None else
  entry0 <- py_index0 entry;
  changes <- py_get entry0 "changes" (JArr []);
  if negb (truthy changes) then Ok None else
  changes0 <- py_index0 changes;
  value <- py_get changes0 "value" (JObj []);
  messages <- py_get value "messages" (JArr []);
  if negb (truthy messages) then Ok None else
  message <- py_index0 messages;
  r <- extract_from_message w message;
  Ok (Some r).

(** [extract_message_data]: [except Exception] turns any raise into [None]. *)
Definition extract_message_data (w : World) (webhook_data : json) : option message_data :=
  match extract_message_data_try w webhook_data with
  | Ok r => r
  | Raise _ => None
  end.

(* ================================================================= *)
(** ** Effects: outbound calls and exceptions *)

(** A computation: its result or the exception it raised, and the outbound
    calls it made on the way. *)
Definition prog (A : Type) : Type := (result A * list call)%type.

Definition ret {A} (a : A) : prog A := (Ok a, []).

Definition lift {A} (r : result A) : prog A := (r, []).

Definition bind {A B} (m : prog A) (k : A -> prog B) : prog B :=
  match m with
  | (Ok a, t) => let (r, t') := k a in (r, t ++ t')
  | (Raise e, t) => (Raise e, t)
  end.

Notation "x <-- m ;; k" := (bind m (fun x => k))
  (at level 61, m at next level, right associativity) : py_scope.

(** [try: m  except <classes> as e: return h e] *)
Definition try_except {A} (m : prog A) (caught : exn_class -> bool) (h : exn -> A) : prog A :=
  match m with
  | (Raise e, t) => if caught (exn_cls e) then (Ok (h e), t) else (Raise e, t)
  | ok => ok
  end.

(** [except Exception] *)
Definition any_exception (c : exn_class) : bool := true.

(** [except requests.exceptions.HTTPError] then
    [except requests.exceptions.RequestException] *)
Definition request_exceptions (c : exn_class) : bool :=
  match c with
  | HTTPError | RequestError => true
  | _ => false
  end.

Definition http_get (w : World) (url : json) : prog response :=
  match requests_get w url with
  | Responded r => (Ok r, [HttpGet url])
  | RequestException => (raise_of RequestError (lit "request failed"), [HttpGet url])
  end.

Definition http_post (w : World) (payload : json) : prog response :=
  match requests_post w payload with
  | Responded r => (Ok r, [HttpPost (WHATSAPP_API_URL w) payload])
  | RequestException =>
      (raise_of RequestError (lit "request failed"), [HttpPost (WHATSAPP_API_URL w) payload])
  end.

(** [response.raise_for_status()] *)
Definition raise_for_status (r : response) : result unit :=
  if raises_for_status r then raise_of HTTPError (lit "HTTP error") else Ok tt.

(** [response.json()] *)
Definition response_body (r : response) : result json :=
  match response_json r with
  | Some j => Ok j
  | None => raise_of DecodeError (lit "response body is not JSON")
  end.

(* ================================================================= *)
(** ** Media fetcher: [download_media_file] *)

Definition download_media_file (w : World) (media_id : json) : prog (option pystr) :=
  try_except
    (url_response <--
       http_get w (JStr (lit "https://graph.facebook.com/v22.0/" ++ py_str w media_id)) ;;
     _ <-- lift (raise_for_status url_response) ;;
     body <-- lift (response_body url_response) ;;
     file_url <-- lift (py_get body "url" JNull) ;;
     if negb (truthy file_url) then ret None else
     file_response <-- http_get w file_url ;;
     _ <-- lift (raise_for_status file_response) ;;
     ret (Some (b64encode (response_content file_response))))
    any_exception (fun _ => None).

(* ================================================================= *)
(** ** Response composer: [get_openai_response_with_media] *)

Definition newlines : pystr := [10; 10]%N.

Definition SYSTEM_INSTRUCTION : pystr :=
  lit "Eres un asistente útil de WhatsApp llamado WaChat Bot. Mantén las respuestas concisas y amigables. Puedes analizar imágenes, documentos, ubicaciones y contactos que te envíen. Siempre responde en español y de manera conversacional.".

Definition SYSTEM_PREAMBLE : pystr :=
  lit "Instrucciones del sistema: Eres un asistente útil de WhatsApp llamado WaChat Bot. Mantén las respuestas concisas y amigables. Siempre responde en español."
    ++ newlines ++ lit "Mensaje del usuario: ".

Definition APOLOGY : pystr :=
  lit "Lo siento, tengo problemas para procesar tu solicitud ahora. Por favor intenta de nuevo más tarde.".

(** The condition of line 113. *)
Definition wants_image_input (media_data : option dict) : bool :=
  match media_data with
  | Some d =>
      nonempty d && is_str (dict_get d "type" JNull) "image"
        && truthy (dict_get d "base64" JNull)
  | None => false
  end.

(** The enrichment appended to [enhanced_message] (lines 138-154). *)
Definition enrichment (w : World) (media_data : option dict) : result pystr :=
  match media_data with
  | Some d =>
      if negb (nonempty d) then Ok [] else
      let type := dict_get d "type" JNull in
      if is_str type "location" then
        Ok (newlines ++ lit "Detalles de ubicación: Latitud "
              ++ py_str w (dict_get d "latitude" JNull)
              ++ lit ", Longitud " ++ py_str w (dict_get d "longitude" JNull)
              ++ (if truthy (dict_get d "name" JNull)
                  then lit ", Lugar: " ++ py_str w (dict_get d "name" JNull) else [])
              ++ (if truthy (dict_get d "address" JNull)
                  then lit ", Dirección: " ++ py_str w (dict_get d "address" JNull) else []))
      else if is_str type "contacts" then
        n <- py_len (dict_get d "contacts" (JArr []));
        Ok (newlines ++ lit "El usuario compartió " ++ str_nat n ++ lit " contacto(s): "
              ++ py_str w (dict_get d "contact_names" (jstr "N/A")))
      else if is_str type "document" then
        Ok (newlines ++ lit "Documento enviado: "
              ++ py_str w (dict_get d "filename" (jstr "Nombre no disponible"))
              ++ lit ", Tipo: " ++ py_str w (dict_get d "mime_type" (jstr "N/A"))
              ++ (if truthy (dict_get d "caption" JNull)
                  then lit ", Descripción: " ++ py_str w (dict_get d "caption" JNull) else []))
      else if is_str type "sticker" then
        Ok (newlines ++ lit "El usuario envió un sticker (emoji/imagen expresiva)")
      else if is_str type "audio" then
        Ok (newlines ++ lit "El usuario envió un mensaje de audio/voz")
      else Ok []
  | None => Ok []
  end.

(** The multi-part [input_data] of lines 115-133, for an image in base64. *)
Definition image_input (w : World) (message base64 : json) : json :=
  JArr
    [JObj [(lit "role", jstr "system"); (lit "content", JStr SYSTEM_INSTRUCTION)];
     JObj [(lit "role", jstr "user"); (lit "content", message)];
     JObj [(lit "role", jstr "user");
           (lit "content",
            JArr [JObj [(lit "type", jstr "input_image");
                        (lit "image_url",
                         JStr (lit "data:image/jpeg;base64," ++ py_str w base64))]])]].

(** [input_data] (lines 113-156): the list of parts, or the single prompt. *)
Definition build_input (w : World) (message : json) (media_data : option dict) : result json :=
  if wants_image_input media_data then
    Ok (image_input w message
          (match media_data with
           | Some d => dict_get d "base64" JNull
           | None => JNull
           end))
  else
    extra <- enrichment w media_data;
    Ok (JStr (SYSTEM_PREAMBLE ++ py_str w message ++ extra)).

(** [openai_client.responses.create(...)], then [response.output_text]. *)
Definition ai_create (w : World) (input_data : json) : prog pystr :=
  match responses_create w input_data with
  | AiRaises => (raise_of APIError (lit "API error"), [AiCreate input_data])
  | AiResponse None =>
      (raise_of AttributeError (lit "output_text is not a string"), [AiCreate input_data])
  | AiResponse (Some output_text) => (Ok output_text, [AiCreate input_data])
  end.

Definition get_openai_response_with_media (w : World) (message : json)
  (media_data : option dict) : prog pystr :=
  try_except
    (input_data <-- lift (build_input w message media_data) ;;
     output_text <-- ai_create w input_data ;;
     ret (strip output_text))
    any_exception (fun _ => APOLOGY).

(* ================================================================= *)
(** ** Outbound senders *)

(** The [try] block shared by the three senders: post, check the status,
    [True]; [False] on [HTTPError] or any other [RequestException]. *)
Definition post_payload (w : World) (payload : json) : prog bool :=
  try_except
    (response <-- http_post w payload ;;
     _ <-- lift (raise_for_status response) ;;
     ret true)
    request_exceptions (fun _ => false).

Definition text_payload (to_phone : json) (message : pystr) : json :=
  JObj [(lit "messaging_product", jstr "whatsapp"); (lit "to", to_phone);
        (lit "type", jstr "text"); (lit "text", JObj [(lit "body", JStr message)])].

(** [send_whatsapp_message] *)
Definition send_whatsapp_message (w : World) (to_phone : json) (message : pystr) : prog bool :=
  post_payload w (text_payload to_phone message).

(** The payload [send_whatsapp_media] builds, [None] for an unsupported type. *)
Definition media_payload (to_phone : json) (media_type : pystr) (media_id : json)
  (caption : pystr) : option json :=
  let envelope kind inner :=
    JObj [(lit "messaging_product", jstr "whatsapp"); (lit "to", to_phone);
          (lit "type", JStr kind); (kind, JObj inner)] in
  let captioned inner :=
    if nonempty caption then inner ++ [(lit "caption", JStr caption)] else inner in
  if pystr_eqb media_type (lit "sticker") then
    Some (envelope (lit "sticker") [(lit "id", media_id)])
  else if pystr_eqb media_type (lit "image") then
    Some (envelope (lit "image") (captioned [(lit "id", media_id)]))
  else if pystr_eqb media_type (lit "audio") then
    Some (envelope (lit "audio") [(lit "id", media_id)])
  else if pystr_eqb media_type (lit "document") then
    Some (envelope (lit "document") (captioned [(lit "id", media_id)]))
  else None.

(** [send_whatsapp_media] *)
Definition send_whatsapp_media (w : World) (to_phone : json) (media_type : pystr)
  (media_id : json) (caption : pystr) : prog bool :=
  match media_payload to_phone media_type media_id caption with
  | Some payload => post_payload w payload
  | None => ret false
  end.

Definition location_payload (to_phone : json) (latitude longitude : float)
  (name address : json) : json :=
  JObj [(lit "messaging_product", jstr "whatsapp"); (lit "to", to_phone);
        (lit "type", jstr "location");
        (lit "location",
         JObj ([(lit "latitude", JFloat latitude); (lit "longitude", JFloat longitude)]
                 ++ (if truthy name then [(lit "name", name)] else [])
                 ++ (if truthy address then [(lit "address", address)] else [])))].

(** [send_whatsapp_location] *)
Definition send_whatsapp_location (w : World) (to_phone : json) (latitude longitude : float)
  (name address : json) : prog bool :=
  post_payload w (location_payload to_phone latitude longitude name address).

(* ================================================================= *)
(** ** The webhook endpoints *)

(** What the HTTP layer answers: a returned [PlainTextResponse], a returned
    dict (serialised as JSON with status 200), or a raised [HTTPException]. *)
Inductive http_reply :=
| PlainTextResponse (status : Z) (content : pystr)
| JSONResponse (status : Z) (body : json)
| HTTPException (status : Z) (detail : pystr).

Definition reply_status (r : http_reply) : Z :=
  match r with
  | PlainTextResponse s _ | JSONResponse s _ | HTTPException s _ => s
  end.

(** [GET /webhook] *)
Definition verify_webhook (w : World) (hub_mode hub_challenge hub_verify_token : pystr)
  : http_reply :=
  if pystr_eqb hub_mode (lit "subscribe") && pystr_eqb hub_verify_token (VERIFY_TOKEN w)
  then PlainTextResponse 200 hub_challenge
  else HTTPException 403 (lit "Verificación falló").

(** The condition of line 534, once [media_data] is a dict [d]. *)
Definition downloadable (d : dict) : bool :=
  nonempty d && truthy (dict_get d "id" JNull)
  && (let type := dict_get d "type" JNull in
      is_str type "image" || is_str type "document" || is_str type "sticker").

(** Lines 534-541: the download step, which may add ["base64"] to the dict. *)
Definition fetch_media (w : World) (media_data : option dict) : prog (option dict) :=
  match media_data with
  | Some d =>
      if downloadable d then
        file_base64 <-- download_media_file w (dict_get d "id" JNull) ;;
        match file_base64 with
        | Some b => if nonempty b then ret (Some (dict_set d (lit "base64") (JStr b)))
                    else ret (Some d)
        | None => ret (Some d)
        end
      else ret (Some d)
  | None => ret None
  end.

(** The caption of line 561. *)
Definition image_caption (ai_response : pystr) : pystr :=
  if (100 <? length ai_response)%nat
  then lit "Recibí esta imagen. " ++ firstn 100 ai_response ++ lit "..."
  else ai_response.

(** Lines 550-580: the media leg; its value is [media_success]. *)
Definition resend_media (w : World) (user_phone : json) (ai_response : pystr)
  (media_data : option dict) : prog bool :=
  match media_data with
  | Some d =>
      if nonempty d && truthy (dict_get d "id" JNull) then
        let media_type := dict_get d "type" JNull in
        let media_id := dict_get d "id" JNull in
        if is_str media_type "sticker" then
          send_whatsapp_media w user_phone (lit "sticker") media_id (lit "")
        else if is_str media_type "image" then
          send_whatsapp_media w user_phone (lit "image") media_id (image_caption ai_response)
        else if is_str media_type "audio" then
          send_whatsapp_media w user_phone (lit "audio") media_id (lit "")
        else if is_str media_type "document" then
          let filename := dict_get d "filename" (jstr "documento") in
          send_whatsapp_media w user_phone (lit "document") media_id
            (lit "Recibí este documento: " ++ py_str w filename)
        else if is_str media_type "location" then
          lat <-- lift (py_float w (dict_get d "latitude" (JInt 0))) ;;
          lng <-- lift (py_float w (dict_get d "longitude" (JInt 0))) ;;
          send_whatsapp_location w user_phone lat lng
            (dict_get d "name" (jstr "")) (dict_get d "address" (jstr ""))
        else ret true
      else ret true
  | None => ret true
  end.

Definition status_ok : json := JObj [(lit "status", jstr "ok")].

Definition status_error (message : pystr) : json :=
  JObj [(lit "status", jstr "error"); (lit "message", JStr message)].

(** The [try] block of [handle_webhook]; [request_json] is the outcome of
    [await request.json()]. *)
Definition handle_webhook_try (w : World) (request_json : result json) : prog json :=
  webhook_data <-- lift request_json ;;
  match extract_message_data w webhook_data with
  | None => ret status_ok
  | Some message_data =>
      let user_phone := msg_from message_data in
      let user_message := msg_text message_data in
      media_data <-- fetch_media w (media_data message_data) ;;
      ai_response <-- get_openai_response_with_media w user_message media_data ;;
      text_success <-- send_whatsapp_message w user_phone ai_response ;;
      media_success <-- resend_media w user_phone ai_response media_data ;;
      ret status_ok
  end.

(** [POST /webhook]: the reply and the outbound calls made. *)
Definition handle_webhook (w : World) (request_json : result json) : http_reply * list call :=
  match try_except (handle_webhook_try w request_json) any_exception
          (fun e => status_error (exn_str e)) with
  | (Ok body, calls) => (JSONResponse 200 body, calls)
  | (Raise e, calls) => (HTTPException 500 (exn_str e), calls)
  end.

(* ================================================================= *)
(** ** Vocabulary of the specification *)

(** The message found by descending [entry[0].changes[0].value.messages[0]],
    when every level of that path is there. *)
Definition field (k : string) (x : json) : option json :=
  match x with
  | JObj d => assoc (lit k) d
  | _ => None
  end.
Arguments field k%_string_scope x.

Definition first_item (x : json) : option json :=
  match x with
  | JArr (v :: _) => Some v
  | _ => None
  end.

Definition and_then {A B} (o : option A) (f : A -> option B) : option B :=
  match o with
  | Some a => f a
  | None => None
  end.

Definition message_at_path (raw_event : json) : option json :=
  and_then (field "entry" raw_event) (fun entry =>
  and_then (first_item entry) (fun entry0 =>
  and_then (field "changes" entry0) (fun changes =>
  and_then (first_item changes) (fun changes0 =>
  and_then (field "value" changes0) (fun value =>
  and_then (field "messages" value) first_item))))).

(** The kinds that carry an attachment, and the declared kinds. *)
Definition attachment_kind (t : json) : bool :=
  is_str t "sticker" || is_str t "image" || is_str t "audio" || is_str t "document"
  || is_str t "location" || is_str t "contacts".

Definition unknown_kind (t : json) : bool :=
  negb (is_str t "text" || attachment_kind t).

(** The calls of a trace that fetch media bytes, post to the messaging
    platform, or reach the completion service. *)
Definition is_get (c : call) : bool := match c with HttpGet _ => true | _ => false end.
Definition is_post (c : call) : bool := match c with HttpPost _ _ => true | _ => false end.
Definition is_ai (c : call) : bool := match c with AiCreate _ => true | _ => false end.

Definition posted (calls : list call) : list json :=
  flat_map (fun c => match c with HttpPost _ p => [p] | _ => [] end) calls.

(** The caption carried by an image payload. *)
Definition caption_of (payload : json) : option json :=
  and_then (field "image" payload) (field "caption").

(** A contacts attachment whose ["contacts"] entry has a length. *)
Definition sized (x : json) : bool :=
  match x with
  | JArr _ | JStr _ | JObj _ => true
  | _ => false
  end.

Definition well_formed_attachment (media_data : option dict) : bool :=
  match media_data with
  | Some d => sized (dict_get d "contacts" (JArr []))
  | None => true
  end.

(** The name a contact contributes: first and last name joined by a space,
    then trimmed. *)
Definition full_name_of (w : World) (contact : json) (full_name : pystr) : Prop :=
  exists dc dn,
    contact = JObj dc /\ dict_get dc "name" (JObj []) = JObj dn
    /\ full_name
       = strip (py_str w (dict_get dn "first_name" (jstr "")) ++ lit " "
                  ++ py_str w (dict_get dn "last_name" (jstr ""))).


(** The kind of a normalised message and the attachment that goes with it. *)
Inductive normal_form : json -> option dict -> Prop :=
| nf_text : normal_form (jstr "text") None
| nf_sticker id mime animated :
    normal_form (jstr "sticker")
      (Some [(lit "type", jstr "sticker"); (lit "id", id); (lit "mime_type", mime);
             (lit "animated", animated)])
| nf_image id mime caption :
    normal_form (jstr "image")
      (Some [(lit "type", jstr "image"); (lit "id", id); (lit "mime_type", mime);
             (lit "caption", caption)])
| nf_audio id mime :
    normal_form (jstr "audio")
      (Some [(lit "type", jstr "audio"); (lit "id", id); (lit "mime_type", mime)])
| nf_document id filename mime caption :
    normal_form (jstr "document")
      (Some [(lit "type", jstr "document"); (lit "id", id); (lit "filename", filename);
             (lit "mime_type", mime); (lit "caption", caption)])
| nf_location lat lng name address :
    normal_form (jstr "location")
      (Some [(lit "type", jstr "location"); (lit "latitude", lat); (lit "longitude", lng);
             (lit "name", name); (lit "address", address)])
| nf_contacts contacts names :
    sized contacts = true ->
    normal_form (jstr "contacts")
      (Some [(lit "type", jstr "contacts"); (lit "contacts", contacts);
             (lit "contact_names", JStr names)])
| nf_unknown t :
    unknown_kind t = true -> normal_form t None.

(* ================================================================= *)
(** ** Sample worlds and events *)

Definition kv (k : string) (v : json) : pystr * json := (lit k, v).
Arguments kv k%_string_scope v.

(** A webhook delivery carrying one message. *)
Definition delivery (message : json) : json :=
  JObj [kv "object" (jstr "whatsapp_business_account");
        kv "entry" (JArr [JObj [kv "id" (jstr "1");
          kv "changes" (JArr [JObj [kv "field" (jstr "messages");
            kv "value" (JObj [kv "messaging_product" (jstr "whatsapp");
                              kv "messages" (JArr [message])])]])]])].


Definition image_message : json :=
  JObj [kv "from" (jstr "593999"); kv "id" (jstr "wamid.1"); kv "type" (jstr "image");
        kv "image" (JObj [kv "id" (jstr "media-7"); kv "mime_type" (jstr "image/jpeg")])].

Definition audio_message : json :=
  JObj [kv "from" (jstr "593999"); kv "id" (jstr "wamid.4"); kv "type" (jstr "audio");
        kv "audio" (JObj [kv "id" (jstr "media-9"); kv "mime_type" (jstr "audio/ogg")])].

Definition location_message : json :=
  JObj [kv "from" (jstr "593999"); kv "id" (jstr "wamid.2"); kv "type" (jstr "location");
        kv "location" (JObj [kv "latitude" (JFloat (-2.25)%float);
                             kv "longitude" (JFloat (-79.875)%float);
                             kv "name" (jstr "Guayaquil")])].

Definition contacts_message : json :=
  JObj [kv "from" (jstr "593999"); kv "id" (jstr "wamid.3"); kv "type" (jstr "contacts");
        kv "contacts"
          (JArr [JObj [kv "name" (JObj [kv "first_name" (jstr "Ana");
                                        kv "last_name" (jstr "Lopez")])];
                 JObj [kv "name" (JObj [kv "first_name" (jstr "");
                                        kv "last_name" (jstr "")])]])].

Definition two_contacts_message : json :=
  JObj [kv "from" (jstr "593999"); kv "id" (jstr "wamid.11"); kv "type" (jstr "contacts");
        kv "contacts"
          (JArr [JObj [kv "name" (JObj [kv "first_name" (jstr "Ana");
                                        kv "last_name" (jstr "Lopez")])];
                 JObj [kv "name" (JObj [kv "first_name" (jstr "Bob");
                                        kv "last_name" (jstr "Ruiz")])]])].

Definition nameless_contacts_message : json :=
  JObj [kv "from" (jstr "593999"); kv "id" (jstr "wamid.5"); kv "type" (jstr "contacts");
        kv "contacts"
          (JArr [JObj [kv "name" (JObj [kv "first_name" (jstr " ");
                                        kv "last_name" (jstr "")])];
                 JObj [kv "phones" (JArr [])]])].

Definition http_200 (body : option json) (content : list byte) : http_outcome :=
  Responded {| status_code := 200; response_json := body; response_content := content |}.

(** Every service answers; the completion is [reply]. *)
Definition answering (reply : pystr) : World :=
  {| VERIFY_TOKEN := lit "s3cret";
     PHONE_NUMBER_ID := lit "1055";
     py_repr := fun _ => lit "<repr>";
     float_conv := fun x =>
       match x with
       | JBool true => Ok PrimFloat.one
       | JBool false | JInt 0 => Ok PrimFloat.zero
       | _ => raise_of ValueError (lit "could not convert string to float")
       end;
     requests_get := fun url =>
       if is_str url "https://cdn.example/media-7"
       then http_200 None [Byte.x68; Byte.x69]
       else http_200 (Some (JObj [kv "url" (jstr "https://cdn.example/media-7")])) [];
     requests_post := fun _ => http_200 (Some (JObj [])) [];
     responses_create := fun _ => AiResponse (Some reply) |}.

(** The platform is unreachable and the completion service fails. *)
Definition offline : World :=
  {| VERIFY_TOKEN := lit "s3cret";
     PHONE_NUMBER_ID := lit "1055";
     py_repr := fun _ => lit "<repr>";
     float_conv := fun _ => raise_of ValueError (lit "could not convert string to float");
     requests_get := fun _ => RequestException;
     requests_post := fun _ => RequestException;
     responses_create := fun _ => AiRaises |}.

Definition long_reply : pystr := repeat 97%N 150.

(** What [await request.json()] raises on a body that is not JSON. *)
Definition not_json : exn :=
  Exn DecodeError (lit "Expecting value: line 1 column 1 (char 0)").

(* ================================================================= *)
(** ** The remaining entry points *)

(** [get_openai_response]: the wrapper kept for backward compatibility. *)
Definition get_openai_response (w : World) (message : json) : prog pystr :=
  get_openai_response_with_media w message None.

(** [POST /test-whatsapp]: the dict it returns and the call it makes. *)
Definition test_whatsapp_message (w : World) (phone_number message : pystr) : prog json :=
  success <-- send_whatsapp_message w (JStr phone_number) message ;;
  ret (JObj [(lit "success", JBool success); (lit "phone_number", JStr phone_number);
             (lit "message", JStr message);
             (lit "whatsapp_api_url", JStr (WHATSAPP_API_URL w))]).

(** The four module-level variables read with [os.getenv] (lines 34-37). *)
Record Settings := {
  verify_token : option pystr;
  whatsapp_token : option pystr;
  phone_number_id : option pystr;
  openai_api_key : option pystr
}.

(** [bool(os.getenv(var))]: set and not empty. *)
Definition is_set (value : option pystr) : bool :=
  match value with
  | Some s => nonempty s
  | None => false
  end.

Definition env_var (name : string) : string := name.
Arguments env_var name%_string_scope.

Definition required_vars : list string :=
  [env_var "VERIFY_TOKEN"; env_var "WHATSAPP_TOKEN"; env_var "PHONE_NUMBER_ID";
   env_var "OPENAI_API_KEY"].

(** The loop of lines 41-44 over the variables still to check. *)
Fixpoint check_required (getenv : string -> option pystr) (vars : list string)
  : result unit :=
  match vars with
  | [] => Ok tt
  | var :: rest =>
      if negb (is_set (getenv var))
      then raise_of ValueError
             (lit "La variable de entorno " ++ lit var ++ lit " es requerida")
      else check_required getenv rest
  end.

(** Lines 34-44: what importing the module leaves, or the [ValueError]. *)
Definition load_settings (getenv : string -> option pystr) : result Settings :=
  _ <- check_required getenv required_vars;
  Ok {| verify_token := getenv (env_var "VERIFY_TOKEN");
        whatsapp_token := getenv (env_var "WHATSAPP_TOKEN");
        phone_number_id := getenv (env_var "PHONE_NUMBER_ID");
        openai_api_key := getenv (env_var "OPENAI_API_KEY") |}.

Definition check_mark (value : option pystr) : json :=
  if is_set value then jstr "✓" else jstr "✗".

(** [GET /health] *)
Definition health_check (s : Settings) : json :=
  JObj [(lit "status", jstr "healthy");
        (lit "environment_check",
         JObj [(lit "verify_token", check_mark (verify_token s));
               (lit "whatsapp_token", check_mark (whatsapp_token s));
               (lit "phone_number_id", check_mark (phone_number_id s));
               (lit "openai_key", check_mark (openai_api_key s))])].

(** The same world with another answer to every post. *)
Definition with_post (w : World) (post : json -> http_outcome) : World :=
  {| VERIFY_TOKEN := VERIFY_TOKEN w;
     PHONE_NUMBER_ID := PHONE_NUMBER_ID w;
     py_repr := py_repr w;
     float_conv := float_conv w;
     requests_get := requests_get w;
     requests_post := post;
     responses_create := responses_create w |}.

(** The kinds whose branch reads an object stored under the kind's own name. *)
Definition object_kinds : list pystr :=
  [lit "text"; lit "sticker"; lit "image"; lit "audio"; lit "document"; lit "location"].

(** What [except Exception: return None] makes of a result. *)
Definition or_none {A} (r : result A) : option A :=
  match r with
  | Ok a => Some a
  | Raise _ => None
  end.

(** The caption inside the object a media payload keeps under its kind. *)
Definition payload_caption (kind : pystr) (payload : json) : option json :=
  match payload with
  | JObj d =>
      match assoc kind d with
      | Some (JObj inner) => assoc (lit "caption") inner
      | _ => None
      end
  | _ => None
  end.

(** The characters [base64.b64encode] may produce: letters, digits, [+],
    [/] and the padding [=]. *)
Definition b64_alphabet (c : N) : Prop :=
  ((65 <= c <= 90) \/ (97 <= c <= 122) \/ (48 <= c <= 57) \/ c = 43 \/ c = 47 \/ c = 61)%N.

Definition first_char (s : pystr) : option N :=
  match s with
  | c :: _ => Some c
  | [] => None
  end.

Definition last_char (s : pystr) : option N := first_char (rev s).

(** More sample messages and a sample environment. *)
Definition text_message : json :=
  JObj [kv "from" (jstr "593999"); kv "id" (jstr "wamid.6"); kv "type" (jstr "text");
        kv "text" (JObj [kv "body" (jstr "Hola")])].

Definition document_message : json :=
  JObj [kv "from" (jstr "593999"); kv "id" (jstr "wamid.7"); kv "type" (jstr "document");
        kv "document" (JObj [kv "id" (jstr "media-3");
                             kv "mime_type" (jstr "application/pdf")])].

Definition sticker_message : json :=
  JObj [kv "from" (jstr "593999"); kv "id" (jstr "wamid.8"); kv "type" (jstr "sticker");
        kv "sticker" (JObj [kv "id" (jstr "media-5"); kv "mime_type" (jstr "image/webp")])].

Definition reaction_message : json :=
  JObj [kv "from" (jstr "593999"); kv "id" (jstr "wamid.9"); kv "type" (jstr "reaction")].

Definition broken_image_message : json :=
  JObj [kv "from" (jstr "593999"); kv "id" (jstr "wamid.10"); kv "type" (jstr "image");
        kv "image" (jstr "media-7")].

(** Two messages in one delivery: only the first is looked at. *)
Definition double_delivery (first second : json) : json :=
  JObj [kv "object" (jstr "whatsapp_business_account");
        kv "entry" (JArr [JObj [kv "id" (jstr "1");
          kv "changes" (JArr [JObj [kv "field" (jstr "messages");
            kv "value" (JObj [kv "messaging_product" (jstr "whatsapp");
                              kv "messages" (JArr [first; second])])]])]])].

Definition all_set (name : string) : option pystr := Some (lit "value").

Definition no_openai_key (name : string) : option pystr :=
  if String.eqb name (env_var "OPENAI_API_KEY") then None else Some (lit "value").

(** The platform answers every post with status 500. *)
Definition failing_posts : json -> http_outcome :=
  fun _ => Responded {| status_code := 500; response_json := None; response_content := [] |}.

(* ================================================================= *)
(** ** Basic facts about the dynamic operations *)

Lemma pystr_eqb_eq a b : pystr_eqb a b = true <-> a = b.
Proof.
  revert b; induction a as [|x a IH]; intros [|y b]; simpl; split; try congruence; intros H.
  - apply andb_true_iff in H as [Hx Hr]. apply N.eqb_eq in Hx. apply IH in Hr. congruence.
  - injection H as -> ->. rewrite N.eqb_refl. simpl. now apply IH.
Qed.

Lemma pystr_eqb_refl a : pystr_eqb a a = true.
Proof. now apply pystr_eqb_eq. Qed.

Lemma is_str_eq x s : is_str x s = true -> x = jstr s.
Proof.
  destruct x; simpl; try discriminate. intros H. apply pystr_eqb_eq in H. now subst.
Qed.

Lemma py_get_inv x k dflt v :
  py_get x k dflt = Ok v -> exists d, x = JObj d /\ v = dict_get d k dflt.
Proof.
  destruct x; simpl; try discriminate. intros H; injection H as <-. eauto.
Qed.

Lemma index0_obj_inv x d :
  py_index0 x = Ok (JObj d) -> exists rest, x = JArr (JObj d :: rest).
Proof.
  destruct x as [| b | z | f | [|c s] | [|x0 rest] | fs]; simpl; try discriminate.
  intros H; injection H as ->. eauto.
Qed.

Lemma dict_get_found d k dflt v :
  v = dict_get d k dflt -> v <> dflt -> field k (JObj d) = Some v.
Proof.
  unfold dict_get, field. destruct (assoc (lit k) d); intros; subst; congruence.
Qed.

Lemma py_len_sized x n : py_len x = Ok n -> sized x = true.
Proof. destruct x; simpl; intros H; try discriminate H; reflexivity. Qed.

Lemma py_iter_len x items : py_iter x = Ok items -> py_len x = Ok (length items).
Proof.
  destruct x; simpl; intros H; try discriminate H; injection H as <-;
    now rewrite ?length_map.
Qed.

(** Peels the binds of a computation known to have returned. *)
Ltac steps H :=
  repeat match type of H with
  | context [match ?e with Ok _ => _ | Raise _ => _ end] =>
      destruct e eqn:?; [|discriminate H]
  end.

(* ================================================================= *)
(** ** The normaliser *)

(** A normalised message was read at the end of the path
    [entry[0].changes[0].value.messages[0]]. *)
Lemma extract_message_data_inv w ev r :
  extract_message_data w ev = Some r ->
  exists message,
    message_at_path ev = Some message /\ extract_from_message w message = Ok r.
Proof.
  unfold extract_message_data. intros H.
  destruct (extract_message_data_try w ev) as [o|] eqn:E; [subst o|discriminate].
  unfold extract_message_data_try in E.
  destruct (py_get ev "entry" (JArr [])) as [entry|] eqn:He; [|discriminate].
  apply py_get_inv in He as (d & -> & Hentry).
  destruct (truthy entry); simpl in E; [|discriminate].
  destruct (py_index0 entry) as [entry0|] eqn:H0; [|discriminate].
  destruct (py_get entry0 "changes" (JArr [])) as [changes|] eqn:Hc; [|discriminate].
  apply py_get_inv in Hc as (d0 & -> & Hchanges).
  apply index0_obj_inv in H0 as (rest0 & ->).
  destruct (truthy changes); simpl in E; [|discriminate].
  destruct (py_index0 changes) as [changes0|] eqn:H1; [|discriminate].
  destruct (py_get changes0 "value" (JObj [])) as [value|] eqn:Hv; [|discriminate].
  apply py_get_inv in Hv as (d1 & -> & Hvalue).
  apply index0_obj_inv in H1 as (rest1 & ->).
  destruct (py_get value "messages" (JArr [])) as [messages|] eqn:Hm; [|discriminate].
  apply py_get_inv in Hm as (dv & -> & Hmessages).
  destruct (truthy messages); simpl in E; [|discriminate].
  destruct (py_index0 messages) as [message|] eqn:H2; [|discriminate].
  destruct (extract_from_message w message) as [r'|] eqn:Hr; [|discriminate].
  injection E as ->.
  assert (Hobj : exists dm, message = JObj dm).
  { unfold extract_from_message in Hr.
    destruct message; simpl in Hr; try discriminate. eauto. }
  destruct Hobj as (dm & ->).
  apply index0_obj_inv in H2 as (rest2 & ->).
  exists (JObj dm). split; [|exact Hr].
  unfold message_at_path.
  rewrite (dict_get_found _ _ _ _ Hentry) by discriminate. cbn [and_then first_item].
  rewrite (dict_get_found _ _ _ _ Hchanges) by discriminate. cbn [and_then first_item].
  unfold dict_get in Hvalue, Hmessages. unfold field at 1.
  destruct (assoc (lit "value") d1) as [v|]; simpl and_then.
  - subst v. unfold field.
    destruct (assoc (lit "messages") dv); [subst; reflexivity | discriminate].
  - injection Hvalue as ->. simpl in Hmessages. discriminate.
Qed.

(** Whatever the branch taken, kind and attachment go together. *)
Lemma extract_from_message_normal w message r :
  extract_from_message w message = Ok r ->
  normal_form (msg_type r) (media_data r).
Proof.
  unfold extract_from_message. intros H.
  destruct message as [| | | | | | dm]; try discriminate H.
  cbn [py_get] in H.
  set (t := dict_get dm "type" JNull) in *.
  destruct (is_str t "text") eqn:T1.
  { apply is_str_eq in T1. steps H. injection H as <-. cbn. rewrite T1. constructor. }
  destruct (is_str t "sticker") eqn:T2.
  { apply is_str_eq in T2. steps H. injection H as <-. cbn. rewrite T2. constructor. }
  destruct (is_str t "image") eqn:T3.
  { apply is_str_eq in T3. steps H. injection H as <-. cbn. rewrite T3. constructor. }
  destruct (is_str t "audio") eqn:T4.
  { apply is_str_eq in T4. steps H. injection H as <-. cbn. rewrite T4. constructor. }
  destruct (is_str t "document") eqn:T5.
  { apply is_str_eq in T5. steps H. injection H as <-. cbn. rewrite T5. constructor. }
  destruct (is_str t "location") eqn:T6.
  { apply is_str_eq in T6. steps H. injection H as <-. cbn. rewrite T6. constructor. }
  destruct (is_str t "contacts") eqn:T7.
  { apply is_str_eq in T7. steps H. injection H as <-. cbn. rewrite T7. constructor.
    eapply py_len_sized; eassumption. }
  injection H as <-. cbn. apply nf_unknown.
  unfold unknown_kind, attachment_kind. now rewrite T1, T2, T3, T4, T5, T6, T7.
Qed.

Lemma extract_message_data_normal w ev r :
  extract_message_data w ev = Some r -> normal_form (msg_type r) (media_data r).
Proof.
  intros H. apply extract_message_data_inv in H as (message & _ & H).
  eapply extract_from_message_normal; eassumption.
Qed.

(** C9. For every raw event on which normalisation returns a message, the
    ["type"] tag of the attachment equals the kind of the message, and the
    attachment is absent exactly when the kind is text or an unknown kind. *)
Theorem attachment_tag_matches_kind w raw_event m :
  extract_message_data w raw_event = Some m ->
  (forall d, media_data m = Some d -> field "type" (JObj d) = Some (msg_type m))
  /\ (media_data m = None
      <-> is_str (msg_type m) "text" = true \/ unknown_kind (msg_type m) = true).
Proof.
  intros H. apply extract_message_data_normal in H.
  destruct H as [| | | | | | |t U]; split;
    try (intros d E; injection E as <-; reflexivity);
    try (split; [discriminate | intros [F|F]; vm_compute in F; discriminate F]).
  - discriminate.
  - split; [left; reflexivity | reflexivity].
  - discriminate.
  - split; [now right | reflexivity].
Qed.

Lemma attachment_tag_matches_kind_image :
  (forall d, media_data
               {| msg_from := jstr "593999"; msg_id := jstr "wamid.1";
                  msg_type := jstr "image";
                  media_data := Some [kv "type" (jstr "image"); kv "id" (jstr "media-7");
                                      kv "mime_type" (jstr "image/jpeg");
                                      kv "caption" (jstr "")];
                  msg_text := jstr "📷 Usuario envió una imagen" |} = Some d ->
             field "type" (JObj d) = Some (jstr "image"))
  /\ (Some [kv "type" (jstr "image"); kv "id" (jstr "media-7");
            kv "mime_type" (jstr "image/jpeg"); kv "caption" (jstr "")] = None
      <-> is_str (jstr "image") "text" = true \/ unknown_kind (jstr "image") = true).
Proof.
  apply (attachment_tag_matches_kind offline (delivery image_message)). reflexivity.
Defined.



(* ================================================================= *)
(** ** Webhook verification *)

(** C7. [GET /webhook] answers the literal challenge as plain text with
    status 200 if and only if the mode is ["subscribe"] and the token is the
    configured secret; with a wrong token the answer is the 403 rejection
    whatever the mode. *)
Theorem verify_webhook_echoes_challenge w hub_mode hub_challenge hub_verify_token :
  (verify_webhook w hub_mode hub_challenge hub_verify_token
     = PlainTextResponse 200 hub_challenge
   <-> hub_mode = lit "subscribe" /\ hub_verify_token = VERIFY_TOKEN w)
  /\ (hub_verify_token <> VERIFY_TOKEN w ->
      forall mode,
        verify_webhook w mode hub_challenge hub_verify_token
          = HTTPException 403 (lit "Verificación falló")).
Proof.
  unfold verify_webhook. split.
  - destruct (pystr_eqb hub_mode (lit "subscribe")) eqn:Em;
      destruct (pystr_eqb hub_verify_token (VERIFY_TOKEN w)) eqn:Et; simpl;
      (split; [intros H; try discriminate H | intros [Hm Ht]]).
    + split; now apply pystr_eqb_eq.
    + reflexivity.
    + apply pystr_eqb_eq in Ht. congruence.
    + apply pystr_eqb_eq in Hm. congruence.
    + apply pystr_eqb_eq in Hm. congruence.
  - intros Hne mode.
    destruct (pystr_eqb hub_verify_token (VERIFY_TOKEN w)) eqn:Et.
    + apply pystr_eqb_eq in Et. contradiction.
    + now rewrite andb_false_r.
Qed.

Lemma verify_webhook_rejects_wrong_token :
  forallb (fun mode =>
             match verify_webhook offline mode (lit "1158201444") (lit "guess") with
             | HTTPException 403 _ => true
             | _ => false
             end)
    [lit "subscribe"; lit "unsubscribe"; lit ""] = true.
Proof.
  pose proof (proj2 (verify_webhook_echoes_challenge
                       offline (lit "subscribe") (lit "1158201444") (lit "guess"))) as H.
  assert (Hne : lit "guess" <> VERIFY_TOKEN offline) by (vm_compute; discriminate).
  cbn [forallb].
  rewrite !(H Hne). reflexivity.
Defined.

(* ================================================================= *)
(** ** Runs of the fetcher, the composer, the senders and the handler *)

Lemma post_payload_run w payload :
  exists ok, post_payload w payload = (Ok ok, [HttpPost (WHATSAPP_API_URL w) payload]).
Proof.
  unfold post_payload, http_post.
  destruct (requests_post w payload) as [r|]; cbn.
  - unfold raise_for_status. destruct (raises_for_status r); cbn; eauto.
  - eauto.
Qed.

Lemma download_media_file_run w media_id :
  exists file_base64 calls,
    download_media_file w media_id = (Ok file_base64, calls)
    /\ forallb is_get calls = true.
Proof.
  unfold download_media_file, http_get.
  destruct (requests_get w _) as [r|]; cbn; [|eauto].
  unfold raise_for_status. destruct (raises_for_status r); cbn; [eauto|].
  unfold response_body. destruct (response_json r) as [body|]; cbn; [|eauto].
  destruct (py_get body "url" JNull) as [file_url|]; cbn; [|eauto].
  destruct (truthy file_url); cbn; [|eauto].
  destruct (requests_get w file_url) as [r'|]; cbn; [|eauto].
  destruct (raises_for_status r'); cbn; eauto.
Qed.

Lemma assoc_dict_set_other d k k' v :
  pystr_eqb k k' = false -> assoc k' (dict_set d k v) = assoc k' d.
Proof.
  intros Hne. induction d as [|[k0 v0] d IH]; simpl.
  - destruct (pystr_eqb k k') eqn:E; congruence.
  - destruct (pystr_eqb k0 k) eqn:E0; simpl.
    + apply pystr_eqb_eq in E0. subst k0. now rewrite Hne.
    + now rewrite IH.
Qed.

Lemma assoc_dict_set_same d k v : assoc k (dict_set d k v) = Some v.
Proof.
  induction d as [|[k0 v0] d IH]; simpl.
  - now rewrite pystr_eqb_refl.
  - destruct (pystr_eqb k0 k) eqn:E0; simpl; rewrite E0; [reflexivity | exact IH].
Qed.

Lemma dict_get_set_other d k k' v dflt :
  pystr_eqb k (lit k') = false ->
  dict_get (dict_set d k v) k' dflt = dict_get d k' dflt.
Proof. intros H. unfold dict_get. now rewrite assoc_dict_set_other. Qed.

Lemma nonempty_dict_set d k v : nonempty (dict_set d k v) = true.
Proof. destruct d as [|[k0 v0] d]; simpl; [reflexivity|]. now destruct (pystr_eqb k0 k). Qed.

(** The download step never raises, makes only GET requests, makes one
    only for a downloadable attachment, and at most adds ["base64"]. *)
Lemma fetch_media_run w media_data :
  exists media_data' calls,
    fetch_media w media_data = (Ok media_data', calls)
    /\ forallb is_get calls = true
    /\ (calls <> [] -> exists d, media_data = Some d /\ downloadable d = true)
    /\ (media_data' = media_data
        \/ exists d b, media_data = Some d /\ downloadable d = true
                       /\ media_data' = Some (dict_set d (lit "base64") (JStr b))).
Proof.
  destruct media_data as [d|]; cbn.
  2:{ exists None, []. repeat split; auto. congruence. }
  destruct (downloadable d) eqn:D.
  2:{ exists (Some d), []. repeat split; auto. congruence. }
  destruct (download_media_file_run w (dict_get d "id" JNull)) as (fb & calls & -> & G).
  cbn. destruct fb as [b|]; [destruct (nonempty b)|]; cbn; rewrite app_nil_r;
    eexists; eexists; (split; [reflexivity|]); (split; [exact G|]); split; eauto 7.
Qed.

(** The composer never raises and calls the service at most once. *)
Lemma composer_run w message media_data :
  exists reply,
    get_openai_response_with_media w message media_data
    = (Ok reply,
       match build_input w message media_data with
       | Ok input_data => [AiCreate input_data]
       | Raise _ => []
       end)
    /\ reply = match build_input w message media_data with
               | Ok input_data =>
                   match responses_create w input_data with
                   | AiResponse (Some output_text) => strip output_text
                   | _ => APOLOGY
                   end
               | Raise _ => APOLOGY
               end.
Proof.
  unfold get_openai_response_with_media.
  destruct (build_input w message media_data) as [input_data|]; cbn; [|eauto].
  unfold ai_create.
  destruct (responses_create w input_data) as [|[txt|]]; cbn; eauto.
Qed.

Lemma downloadable_nonempty d : downloadable d = true -> nonempty d = true.
Proof.
  unfold downloadable. intros H.
  apply andb_true_iff in H as [H _]. now apply andb_true_iff in H as [H _].
Qed.

(** The media leg does not read ["base64"]. *)
Lemma resend_media_set_base64 w phone reply d v :
  nonempty d = true ->
  resend_media w phone reply (Some (dict_set d (lit "base64") v))
  = resend_media w phone reply (Some d).
Proof.
  intros Hd. unfold resend_media.
  rewrite nonempty_dict_set, Hd.
  rewrite !dict_get_set_other by reflexivity. reflexivity.
Qed.

Lemma send_whatsapp_media_run w phone kind id caption payload :
  media_payload phone kind id caption = Some payload ->
  exists ok,
    send_whatsapp_media w phone kind id caption
    = (Ok ok, [HttpPost (WHATSAPP_API_URL w) payload]).
Proof.
  intros H. unfold send_whatsapp_media. rewrite H. apply post_payload_run.
Qed.

(** On a normalised attachment the media leg never raises, and only posts. *)
Lemma resend_media_normal w phone reply t media_data :
  normal_form t media_data ->
  exists ok calls,
    resend_media w phone reply media_data = (Ok ok, calls)
    /\ forallb is_post calls = true.
Proof.
  intros NF. destruct NF as [|id ? ?|id ? ?|id ?|id fn ? ?| | |];
    try (exists true, []; split; reflexivity).
  all: unfold resend_media; cbn.
  all: destruct (truthy id); [|exists true, []; split; reflexivity].
  all: match goal with |- context [post_payload ?w0 ?p] =>
         destruct (post_payload_run w0 p) as (ok & ->) end.
  all: eexists; eexists; split; reflexivity.
Qed.

(** A location attachment has no ["id"]: the media leg sends nothing. *)
Lemma resend_media_location w phone reply lat lng name address :
  resend_media w phone reply
    (Some [(lit "type", jstr "location"); (lit "latitude", lat); (lit "longitude", lng);
           (lit "name", name); (lit "address", address)])
  = (Ok true, []).
Proof. reflexivity. Qed.

Lemma resend_media_image w phone reply id mime caption :
  truthy id = true ->
  exists ok payload,
    media_payload phone (lit "image") id (image_caption reply) = Some payload
    /\ resend_media w phone reply
         (Some [(lit "type", jstr "image"); (lit "id", id); (lit "mime_type", mime);
                (lit "caption", caption)])
       = (Ok ok, [HttpPost (WHATSAPP_API_URL w) payload]).
Proof.
  intros Hid. unfold resend_media. cbn. rewrite Hid.
  match goal with |- context [post_payload w ?p] =>
    destruct (post_payload_run w p) as (ok & ->) end.
  eexists; eexists; split; reflexivity.
Qed.

Lemma caption_of_image_payload phone id caption payload :
  media_payload phone (lit "image") id caption = Some payload ->
  caption_of payload = if nonempty caption then Some (JStr caption) else None.
Proof.
  cbn. intros H; injection H as <-. destruct (nonempty caption); reflexivity.
Qed.

(** The [except] clause of the POST handler. *)
Lemma handle_webhook_of_try w request_json :
  handle_webhook w request_json
  = match handle_webhook_try w request_json with
    | (Ok body, calls) => (JSONResponse 200 body, calls)
    | (Raise e, calls) => (JSONResponse 200 (status_error (exn_str e)), calls)
    end.
Proof.
  unfold handle_webhook.
  destruct (handle_webhook_try w request_json) as [[body|e] calls]; reflexivity.
Qed.

(** One run of the POST handler on an event that carries a message. *)
Lemma handle_webhook_run w ev m :
  extract_message_data w ev = Some m ->
  exists media_data' gets reply ok posts,
    fetch_media w (media_data m) = (Ok media_data', gets)
    /\ fst (get_openai_response_with_media w (msg_text m) media_data') = Ok reply
    /\ resend_media w (msg_from m) reply media_data' = (Ok ok, posts)
    /\ forallb is_post posts = true
    /\ handle_webhook_try w (Ok ev)
       = (Ok status_ok,
          gets ++ snd (get_openai_response_with_media w (msg_text m) media_data')
            ++ [HttpPost (WHATSAPP_API_URL w) (text_payload (msg_from m) reply)]
            ++ posts).
Proof.
  intros E.
  destruct (fetch_media_run w (media_data m)) as (md' & gets & F & _ & _ & Hmd).
  destruct (composer_run w (msg_text m) md') as (reply & C & _).
  assert (R : exists ok posts,
             resend_media w (msg_from m) reply md' = (Ok ok, posts)
             /\ forallb is_post posts = true).
  { pose proof (extract_message_data_normal _ _ _ E) as NF.
    destruct Hmd as [-> | (d & b & Hd & D & ->)].
    - destruct (resend_media_normal w (msg_from m) reply _ _ NF) as (ok & posts & R).
      exists ok, posts. exact R.
    - rewrite resend_media_set_base64 by now apply downloadable_nonempty.
      rewrite Hd in NF.
      destruct (resend_media_normal w (msg_from m) reply _ _ NF) as (ok & posts & R).
      exists ok, posts. exact R. }
  destruct R as (ok & posts & R & P).
  exists md', gets, reply, ok, posts.
  split; [exact F|]. split; [now rewrite C|]. split; [exact R|]. split; [exact P|].
  unfold handle_webhook_try. cbn [lift bind]. rewrite E.
  rewrite F. cbn [bind]. rewrite C. cbn [bind snd].
  unfold send_whatsapp_message.
  destruct (post_payload_run w (text_payload (msg_from m) reply)) as (ok1 & ->).
  cbn [bind]. rewrite R. cbn [bind ret].
  cbn [app]. now rewrite app_nil_r.
Qed.

(** A parsed body always completes normally. *)
Lemma handle_webhook_try_ok w ev :
  exists calls, handle_webhook_try w (Ok ev) = (Ok status_ok, calls).
Proof.
  destruct (extract_message_data w ev) as [m|] eqn:E.
  - destruct (handle_webhook_run w ev m E) as (? & ? & ? & ? & ? & _ & _ & _ & _ & R).
    eauto.
  - exists []. unfold handle_webhook_try. cbn [lift bind]. now rewrite E.
Qed.

(* ================================================================= *)
(** ** What a run of the handler sends *)

Lemma posted_app a b : posted (a ++ b) = posted a ++ posted b.
Proof. apply flat_map_app. Qed.

Lemma posted_gets calls : forallb is_get calls = true -> posted calls = [].
Proof.
  induction calls as [|[u|u p|i] calls IH]; simpl; try discriminate; auto.
Qed.

Lemma posted_composer w message media_data :
  posted (snd (get_openai_response_with_media w message media_data)) = []
  /\ existsb is_get (snd (get_openai_response_with_media w message media_data)) = false.
Proof.
  destruct (composer_run w message media_data) as (reply & -> & _). cbn [snd].
  destruct (build_input w message media_data); split; reflexivity.
Qed.

Lemma existsb_get_posts calls : forallb is_post calls = true -> existsb is_get calls = false.
Proof.
  induction calls as [|[u|u p|i] calls IH]; simpl; try discriminate; auto.
Qed.

(** Kind and tag agree, and the normaliser never sets ["base64"]. *)
Lemma normal_form_tag t d :
  normal_form t (Some d) ->
  dict_get d "type" JNull = t /\ field "base64" (JObj d) = None.
Proof.
  intros NF. remember (Some d) as md eqn:E.
  destruct NF; try discriminate E; injection E as <-; split; reflexivity.
Qed.

Lemma downloadable_inv d :
  downloadable d = true ->
  truthy (dict_get d "id" JNull) = true
  /\ (dict_get d "type" JNull = jstr "image" \/ dict_get d "type" JNull = jstr "document"
      \/ dict_get d "type" JNull = jstr "sticker").
Proof.
  unfold downloadable. intros H.
  apply andb_true_iff in H as [H K]. apply andb_true_iff in H as [_ H].
  split; [exact H|]. cbv zeta in K.
  apply orb_true_iff in K as [K|K]; [apply orb_true_iff in K as [K|K]|];
    apply is_str_eq in K; auto.
Qed.

(** A location message normalises to an attachment without ["id"]. *)
Lemma normal_form_location md :
  normal_form (jstr "location") md ->
  exists lat lng name address,
    md = Some [(lit "type", jstr "location"); (lit "latitude", lat); (lit "longitude", lng);
               (lit "name", name); (lit "address", address)].
Proof.
  intros NF. remember (jstr "location") as t eqn:E.
  destruct NF; try (vm_compute in E; discriminate E); eauto.
  subst t. vm_compute in H. discriminate H.
Qed.

Lemma normal_form_image md :
  normal_form (jstr "image") md ->
  exists id mime caption,
    md = Some [(lit "type", jstr "image"); (lit "id", id); (lit "mime_type", mime);
               (lit "caption", caption)].
Proof.
  intros NF. remember (jstr "image") as t eqn:E.
  destruct NF; try (vm_compute in E; discriminate E); eauto.
  subst t. vm_compute in H. discriminate H.
Qed.

(** Every location message: the only post is the text reply. *)
Lemma location_follow_up_never_sent w raw_event m :
  extract_message_data w raw_event = Some m ->
  msg_type m = jstr "location" ->
  exists reply,
    posted (snd (handle_webhook w (Ok raw_event))) = [text_payload (msg_from m) reply].
Proof.
  intros E T.
  destruct (handle_webhook_run w raw_event m E)
    as (md' & gets & reply & ok & posts & F & _ & R & _ & H).
  pose proof (extract_message_data_normal _ _ _ E) as NF. rewrite T in NF.
  apply normal_form_location in NF as (lat & lng & name & address & Hmd).
  rewrite Hmd in F. cbn in F. injection F as <- <-.
  rewrite resend_media_location in R. injection R as <- <-.
  exists reply. rewrite handle_webhook_of_try, H. cbn [snd app].
  rewrite posted_app. rewrite (proj1 (posted_composer _ _ _)). reflexivity.
Qed.

(** C1. The code at a location message: the message is normalised, the
    completion is asked once, the text reply is posted, and nothing else is
    sent; the location branch of the media leg sits behind the test on
    ["id"], which a location attachment never has. *)
Theorem location_message_gets_no_follow_up :
  extract_message_data (answering (lit "Hola")) (delivery location_message) <> None
  /\ snd (handle_webhook (answering (lit "Hola")) (Ok (delivery location_message)))
     = [AiCreate
          (JStr (SYSTEM_PREAMBLE ++ lit "📍 Usuario compartió ubicación" ++ newlines
                   ++ lit "Detalles de ubicación: Latitud <repr>, Longitud <repr>, Lugar: Guayaquil"));
        HttpPost (WHATSAPP_API_URL (answering (lit "Hola")))
          (text_payload (jstr "593999") (lit "Hola"))].
Proof. split; [discriminate | vm_compute; reflexivity]. Qed.

(** With a reply of 150 characters the caption of the image echo is not the
    first 100 characters followed by the ellipsis: a fixed prefix comes first. *)
Lemma long_reply_caption_is_prefixed :
  length long_reply = 150%nat
  /\ map caption_of
       (posted (snd (handle_webhook (answering long_reply) (Ok (delivery image_message)))))
     <> [None; Some (JStr (firstn 100 long_reply ++ lit "..."))].
Proof. split; [reflexivity | vm_compute; discriminate]. Qed.

(** C2, amended. For an image message that carries a media id, the handler
    posts the text reply and then the image; when the reply is longer than
    100 characters the caption is the fixed prefix, the first 100 characters
    of the reply and the ellipsis; when it is at most 100 characters the
    caption is the whole reply, and an empty reply leaves the caption out. *)
Theorem image_echo_caption w raw_event m d :
  extract_message_data w raw_event = Some m ->
  msg_type m = jstr "image" ->
  media_data m = Some d ->
  truthy (dict_get d "id" JNull) = true ->
  exists reply payload,
    posted (snd (handle_webhook w (Ok raw_event)))
    = [text_payload (msg_from m) reply; payload]
    /\ ((100 < length reply)%nat ->
        caption_of payload
        = Some (JStr (lit "Recibí esta imagen. " ++ firstn 100 reply ++ lit "...")))
    /\ ((length reply <= 100)%nat -> reply <> [] -> caption_of payload = Some (JStr reply))
    /\ (reply = [] -> caption_of payload = None).
Proof.
  intros E T Hd Hid.
  destruct (handle_webhook_run w raw_event m E)
    as (md' & gets & reply & ok & posts & F & _ & R & _ & H).
  pose proof (extract_message_data_normal _ _ _ E) as NF. rewrite T in NF.
  apply normal_form_image in NF as (id & mime & caption & Hmd).
  rewrite Hmd in Hd. injection Hd as <-. change (truthy id = true) in Hid.
  destruct (fetch_media_run w (media_data m)) as (md'' & gets' & F' & G & _ & K).
  rewrite F in F'. injection F' as <- <-.
  destruct (resend_media_image w (msg_from m) reply id mime caption Hid)
    as (ok' & payload & P & R').
  assert (R'' : resend_media w (msg_from m) reply md'
                = (Ok ok', [HttpPost (WHATSAPP_API_URL w) payload])).
  { destruct K as [-> | (d & b & Hd & D & ->)].
    - now rewrite Hmd.
    - rewrite resend_media_set_base64 by now apply downloadable_nonempty.
      rewrite Hmd in Hd. injection Hd as <-. exact R'. }
  rewrite R in R''. injection R'' as <- ->.
  exists reply, payload. split.
  - rewrite handle_webhook_of_try, H. cbn [snd].
    rewrite !posted_app, (posted_gets _ G), (proj1 (posted_composer _ _ _)). reflexivity.
  - rewrite (caption_of_image_payload _ _ _ _ P). unfold image_caption.
    repeat split.
    + intros L. apply Nat.ltb_lt in L. rewrite L. reflexivity.
    + intros L N. destruct (100 <? length reply)%nat eqn:B.
      * apply Nat.ltb_lt in B. lia.
      * destruct reply; [contradiction|reflexivity].
    + intros ->. reflexivity.
Qed.

Lemma image_echo_caption_long_reply :
  exists m d,
    extract_message_data (answering long_reply) (delivery image_message) = Some m
    /\ media_data m = Some d
    /\ exists reply payload,
         posted (snd (handle_webhook (answering long_reply) (Ok (delivery image_message))))
         = [text_payload (msg_from m) reply; payload]
         /\ ((100 < length reply)%nat ->
             caption_of payload
             = Some (JStr (lit "Recibí esta imagen. " ++ firstn 100 reply ++ lit "...")))
         /\ ((length reply <= 100)%nat -> reply <> [] ->
             caption_of payload = Some (JStr reply))
         /\ (reply = [] -> caption_of payload = None).
Proof.
  eexists. eexists. split; [reflexivity|]. split; [reflexivity|].
  eapply (image_echo_caption (answering long_reply) (delivery image_message));
    reflexivity.
Defined.
Lemma existsb_get_only_gets w raw_event m :
  extract_message_data w raw_event = Some m ->
  existsb is_get (snd (handle_webhook w (Ok raw_event)))
  = existsb is_get (snd (fetch_media w (media_data m))).
Proof.
  intros E.
  destruct (handle_webhook_run w raw_event m E)
    as (md' & gets & reply & ok & posts & F & _ & _ & P & H).
  rewrite handle_webhook_of_try, H, F. cbn [snd].
  rewrite !existsb_app, (proj2 (posted_composer _ _ _)), (existsb_get_posts _ P).
  cbn. now rewrite orb_false_r.
Qed.

(** C10. On an event that carries a message, the handler makes a media GET
    only when the attachment has a media id and the kind is image, document
    or sticker; for audio and location it makes none; and after the download
    step ["base64"] is present only for those three kinds. *)
Theorem media_fetch_only_for_three_kinds w raw_event m :
  extract_message_data w raw_event = Some m ->
  (existsb is_get (snd (handle_webhook w (Ok raw_event))) = true ->
   (exists d, media_data m = Some d /\ truthy (dict_get d "id" JNull) = true)
   /\ (msg_type m = jstr "image" \/ msg_type m = jstr "document"
       \/ msg_type m = jstr "sticker"))
  /\ (msg_type m = jstr "audio" \/ msg_type m = jstr "location" ->
      existsb is_get (snd (handle_webhook w (Ok raw_event))) = false)
  /\ (forall d', fst (fetch_media w (media_data m)) = Ok (Some d') ->
      field "base64" (JObj d') <> None ->
      msg_type m = jstr "image" \/ msg_type m = jstr "document"
      \/ msg_type m = jstr "sticker").
Proof.
  intros E.
  pose proof (extract_message_data_normal _ _ _ E) as NF.
  assert (K : forall d, media_data m = Some d -> downloadable d = true ->
              truthy (dict_get d "id" JNull) = true
              /\ (msg_type m = jstr "image" \/ msg_type m = jstr "document"
                  \/ msg_type m = jstr "sticker")).
  { intros d Hd D. rewrite Hd in NF. apply normal_form_tag in NF as [Tag _].
    apply downloadable_inv in D as [Hid Hk]. now rewrite Tag in Hk. }
  rewrite (existsb_get_only_gets _ _ _ E).
  destruct (fetch_media_run w (media_data m)) as (md' & gets & F & _ & Hne & Hmd).
  rewrite F. cbn [fst snd].
  assert (P1 : existsb is_get gets = true ->
               (exists d, media_data m = Some d /\ truthy (dict_get d "id" JNull) = true)
               /\ (msg_type m = jstr "image" \/ msg_type m = jstr "document"
                   \/ msg_type m = jstr "sticker")).
  { intros X. destruct Hne as (d & Hd & D); [now destruct gets|].
    destruct (K d Hd D). eauto. }
  split; [exact P1|]. split.
  - intros T. destruct (existsb is_get gets); [|reflexivity].
    destruct P1 as [_ P1]; [reflexivity|].
    destruct T as [T|T]; rewrite T in P1;
      destruct P1 as [P1|[P1|P1]]; vm_compute in P1; discriminate P1.
  - intros d' Hd' B. injection Hd' as ->.
    destruct Hmd as [Hmd | (d & b & Hd & D & _)].
    + symmetry in Hmd. rewrite Hmd in NF. apply normal_form_tag in NF as [_ N].
      contradiction.
    + now destruct (K d Hd D).
Qed.

Lemma media_fetch_only_for_three_kinds_image :
  existsb is_get
    (snd (handle_webhook (answering (lit "Hola")) (Ok (delivery image_message)))) = true
  /\ ((exists d,
          Some [kv "type" (jstr "image"); kv "id" (jstr "media-7");
                kv "mime_type" (jstr "image/jpeg"); kv "caption" (jstr "")] = Some d
          /\ truthy (dict_get d "id" JNull) = true)
      /\ (jstr "image" = jstr "image" \/ jstr "image" = jstr "document"
          \/ jstr "image" = jstr "sticker"))
  /\ existsb is_get
       (snd (handle_webhook (answering (lit "Hola")) (Ok (delivery audio_message)))) = false.
Proof.
  split; [reflexivity|]. split.
  - apply (proj1 (media_fetch_only_for_three_kinds
                    (answering (lit "Hola")) (delivery image_message)
                    {| msg_from := jstr "593999"; msg_id := jstr "wamid.1";
                       msg_type := jstr "image";
                       media_data := Some [kv "type" (jstr "image"); kv "id" (jstr "media-7");
                                           kv "mime_type" (jstr "image/jpeg");
                                           kv "caption" (jstr "")];
                       msg_text := jstr "📷 Usuario envió una imagen" |} eq_refl)).
    reflexivity.
  - apply (proj1 (proj2 (media_fetch_only_for_three_kinds
                    (answering (lit "Hola")) (delivery audio_message)
                    {| msg_from := jstr "593999"; msg_id := jstr "wamid.4";
                       msg_type := jstr "audio";
                       media_data := Some [kv "type" (jstr "audio"); kv "id" (jstr "media-9");
                                           kv "mime_type" (jstr "audio/ogg")];
                       msg_text := jstr "🎵 Usuario envió un audio" |} eq_refl))).
    left. reflexivity.
Defined.

(** The reply of the POST handler depends on the request body alone. *)
Lemma handle_webhook_reply w request_json :
  fst (handle_webhook w request_json)
  = match request_json with
    | Ok _ => JSONResponse 200 status_ok
    | Raise e => JSONResponse 200 (status_error (exn_str e))
    end.
Proof.
  rewrite handle_webhook_of_try. destruct request_json as [ev|e]; [|reflexivity].
  now destruct (handle_webhook_try_ok w ev) as (calls & ->).
Qed.

(** C8. [POST /webhook] always answers with status 200: the body
    [{"status": "ok"}] when the [try] block completes, which it does for
    every JSON body, and [{"status": "error", "message": str(e)}] when the
    block raises [e]; the reply is the same whatever the outbound services
    answer, so a failed text or media post never changes it. *)
Theorem handle_webhook_always_200 w request_json :
  reply_status (fst (handle_webhook w request_json)) = 200%Z
  /\ (forall body, fst (handle_webhook_try w request_json) = Ok body ->
        body = JObj [(lit "status", JStr (lit "ok"))]
        /\ fst (handle_webhook w request_json)
           = JSONResponse 200 (JObj [(lit "status", JStr (lit "ok"))]))
  /\ (forall e, fst (handle_webhook_try w request_json) = Raise e ->
        fst (handle_webhook w request_json)
        = JSONResponse 200
            (JObj [(lit "status", JStr (lit "error")); (lit "message", JStr (exn_str e))]))
  /\ (forall raw_event, request_json = Ok raw_event ->
        fst (handle_webhook w request_json)
        = JSONResponse 200 (JObj [(lit "status", JStr (lit "ok"))]))
  /\ (forall e, request_json = Raise e ->
        fst (handle_webhook w request_json)
        = JSONResponse 200
            (JObj [(lit "status", JStr (lit "error")); (lit "message", JStr (exn_str e))]))
  /\ (forall w', fst (handle_webhook w' request_json) = fst (handle_webhook w request_json)).
Proof.
  change (JObj [(lit "status", JStr (lit "ok"))]) with status_ok.
  assert (Err : forall e,
            JObj [(lit "status", JStr (lit "error")); (lit "message", JStr (exn_str e))]
            = status_error (exn_str e)) by reflexivity.
  split; [|split; [|split; [|split; [|split]]]].
  - rewrite handle_webhook_reply. now destruct request_json.
  - intros body B. rewrite handle_webhook_reply. destruct request_json as [ev|e].
    + destruct (handle_webhook_try_ok w ev) as (calls & T). rewrite T in B.
      injection B as <-. auto.
    + discriminate B.
  - intros e B. rewrite Err, handle_webhook_reply. destruct request_json as [ev|e'].
    + destruct (handle_webhook_try_ok w ev) as (calls & T). rewrite T in B. discriminate B.
    + now injection B as <-.
  - intros ev ->. apply handle_webhook_reply.
  - intros e ->. rewrite Err. apply handle_webhook_reply.
  - intros w'. now rewrite !handle_webhook_reply.
Qed.

Lemma handle_webhook_always_200_offline :
  fst (handle_webhook offline (Ok (delivery image_message)))
  = JSONResponse 200 (JObj [(lit "status", JStr (lit "ok"))])
  /\ fst (handle_webhook offline (Raise not_json))
     = JSONResponse 200
         (JObj [(lit "status", JStr (lit "error"));
                (lit "message", JStr (exn_str not_json))])
  /\ exn_str not_json = lit "Expecting value: line 1 column 1 (char 0)".
Proof.
  split; [|split].
  - apply (proj1 (proj2 (proj2 (proj2
             (handle_webhook_always_200 offline (Ok (delivery image_message))))))
             (delivery image_message)).
    reflexivity.
  - apply (proj1 (proj2 (proj2 (proj2 (proj2
             (handle_webhook_always_200 offline (Raise not_json)))))) not_json).
    reflexivity.
  - reflexivity.
Defined.

(* ================================================================= *)
(** ** The composer *)



Lemma enrichment_well_formed w media_data :
  well_formed_attachment media_data = true ->
  exists extra, enrichment w media_data = Ok extra.
Proof.
  intros WF. unfold enrichment. destruct media_data as [d|]; [|eauto].
  destruct (negb (nonempty d)); [eauto|]. cbv zeta.
  repeat match goal with
         | |- context [if is_str ?x ?s then _ else _] => destruct (is_str x s)
         end; eauto.
  cbn in WF. destruct (dict_get d "contacts" (JArr [])); try discriminate WF; cbn; eauto.
Qed.




(** The attachment the handler hands to the composer is well formed. *)
Lemma fetched_attachment_well_formed w raw_event m media_data' :
  extract_message_data w raw_event = Some m ->
  fst (fetch_media w (media_data m)) = Ok media_data' ->
  well_formed_attachment media_data' = true.
Proof.
  intros E F.
  pose proof (extract_message_data_normal _ _ _ E) as NF.
  assert (WF : well_formed_attachment (media_data m) = true).
  { destruct NF; try reflexivity. cbn. assumption. }
  destruct (fetch_media_run w (media_data m)) as (md' & gets & F' & _ & _ & K).
  rewrite F' in F. injection F as <-.
  destruct K as [-> | (d & b & Hd & _ & ->)]; [exact WF|].
  rewrite Hd in WF. cbn in *. now rewrite dict_get_set_other by reflexivity.
Qed.



(* ================================================================= *)
(** ** Contact cards *)

Lemma contact_full_name_inv w contact n :
  contact_full_name w contact = Ok n -> full_name_of w contact n.
Proof.
  unfold contact_full_name. intros H.
  destruct (py_get contact "name" (JObj [])) as [name|] eqn:E1; [|discriminate].
  apply py_get_inv in E1 as (dc & -> & E1).
  destruct (py_get name "first_name" (jstr "")) as [f|] eqn:E2; [|discriminate].
  apply py_get_inv in E2 as (dn & -> & ->).
  cbn [py_get] in H. injection H as <-.
  exists dc, dn. auto.
Qed.

Lemma collect_contact_names_inv w entries names :
  collect_contact_names w entries = Ok names ->
  exists full_names,
    Forall2 (full_name_of w) entries full_names
    /\ names = filter (@nonempty N) full_names.
Proof.
  revert names. induction entries as [|c entries IH]; intros names H; simpl in H.
  - injection H as <-. exists []. split; constructor.
  - destruct (contact_full_name w c) as [n|] eqn:E; [|discriminate].
    destruct (collect_contact_names w entries) as [ns|]; [|discriminate].
    injection H as <-. destruct (IH ns eq_refl) as (fulls & F & ->).
    exists (n :: fulls). split.
    + constructor; [now apply contact_full_name_inv | exact F].
    + simpl. now destruct (nonempty n).
Qed.

Lemma extract_from_message_type w dm r :
  extract_from_message w (JObj dm) = Ok r -> msg_type r = dict_get dm "type" JNull.
Proof.
  unfold extract_from_message. cbn [py_get]. intros H.
  repeat match type of H with
         | context [if ?b then _ else _] => destruct b
         end; steps H; now injection H as <-.
Qed.

(** C3. For a contacts message that normalises, take the contacts of the
    message found at [entry[0].changes[0].value.messages[0]]: every one of
    them contributes its first and last name joined by a space and trimmed;
    the empty results are dropped and the others joined with [", "], in
    order; when none is left the list is the sentinel ["Sin nombres"]; the
    display text carries the number of contacts of the message. *)
Theorem contacts_are_joined w raw_event m :
  extract_message_data w raw_event = Some m ->
  msg_type m = jstr "contacts" ->
  exists dm entries full_names,
    message_at_path raw_event = Some (JObj dm)
    /\ py_iter (dict_get dm "contacts" (JArr [])) = Ok entries
    /\ (forall l, field "contacts" (JObj dm) = Some (JArr l) -> entries = l)
    /\ (field "contacts" (JObj dm) = None -> entries = [])
    /\ Forall2 (full_name_of w) entries full_names
    /\ media_data m
       = Some [(lit "type", JStr (lit "contacts"));
               (lit "contacts", dict_get dm "contacts" (JArr []));
               (lit "contact_names",
                JStr (if nonempty (filter (@nonempty N) full_names)
                      then join (lit ", ") (filter (@nonempty N) full_names)
                      else lit "Sin nombres"))]
    /\ msg_text m
       = JStr (lit "👤 Usuario compartió " ++ str_nat (length entries)
                 ++ lit " contacto(s)").
Proof.
  intros E T.
  apply extract_message_data_inv in E as (message & P & H).
  assert (Hobj : exists dm, message = JObj dm).
  { unfold extract_from_message in H. destruct message; try discriminate H. eauto. }
  destruct Hobj as (dm & ->).
  pose proof (extract_from_message_type _ _ _ H) as Ty. rewrite T in Ty.
  unfold extract_from_message in H. cbn [py_get] in H. rewrite <- Ty in H.
  change (is_str (jstr "contacts") "text") with false in H.
  change (is_str (jstr "contacts") "sticker") with false in H.
  change (is_str (jstr "contacts") "image") with false in H.
  change (is_str (jstr "contacts") "audio") with false in H.
  change (is_str (jstr "contacts") "document") with false in H.
  change (is_str (jstr "contacts") "location") with false in H.
  change (is_str (jstr "contacts") "contacts") with true in H.
  cbv iota in H.
  destruct (py_iter (dict_get dm "contacts" (JArr []))) as [entries|] eqn:I; [|discriminate].
  destruct (collect_contact_names w entries) as [names|] eqn:C; [|discriminate].
  rewrite (py_iter_len _ _ I) in H. injection H as <-.
  apply collect_contact_names_inv in C as (fulls & F & ->).
  exists dm, entries, fulls.
  split; [exact P|]. split; [exact I|]. split; [|split; [|auto]].
  - intros l L. unfold field in L. unfold dict_get in I. rewrite L in I.
    now injection I as <-.
  - intros L. unfold field in L. unfold dict_get in I. rewrite L in I.
    now injection I as <-.
Qed.

Lemma contacts_are_joined_ana_lopez :
  exists m,
    extract_message_data offline (delivery contacts_message) = Some m
    /\ and_then (media_data m) (fun d => field "contact_names" (JObj d))
       = Some (JStr (lit "Ana Lopez"))
    /\ msg_text m = JStr (lit "👤 Usuario compartió 2 contacto(s)")
    /\ exists dm entries full_names,
         message_at_path (delivery contacts_message) = Some (JObj dm)
         /\ py_iter (dict_get dm "contacts" (JArr [])) = Ok entries
         /\ (forall l, field "contacts" (JObj dm) = Some (JArr l) -> entries = l)
         /\ (field "contacts" (JObj dm) = None -> entries = [])
         /\ Forall2 (full_name_of offline) entries full_names
         /\ media_data m
            = Some [(lit "type", JStr (lit "contacts"));
                    (lit "contacts", dict_get dm "contacts" (JArr []));
                    (lit "contact_names",
                     JStr (if nonempty (filter (@nonempty N) full_names)
                           then join (lit ", ") (filter (@nonempty N) full_names)
                           else lit "Sin nombres"))]
         /\ msg_text m
            = JStr (lit "👤 Usuario compartió " ++ str_nat (length entries)
                      ++ lit " contacto(s)").
Proof.
  eexists. split; [reflexivity|]. split; [reflexivity|]. split; [reflexivity|].
  apply (contacts_are_joined offline (delivery contacts_message)); reflexivity.
Defined.

(** Two named contacts are both kept, in order. *)
Lemma two_contacts_are_both_joined :
  exists m,
    extract_message_data offline (delivery two_contacts_message) = Some m
    /\ and_then (media_data m) (fun d => field "contact_names" (JObj d))
       = Some (JStr (lit "Ana Lopez, Bob Ruiz"))
    /\ msg_text m = JStr (lit "👤 Usuario compartió 2 contacto(s)").
Proof. eexists. repeat split; reflexivity. Qed.

(** When no contact yields a name, the list is the sentinel. *)
Lemma nameless_contacts_give_the_sentinel :
  and_then (and_then (extract_message_data offline (delivery nameless_contacts_message))
              media_data)
    (fun d => field "contact_names" (JObj d))
  = Some (jstr "Sin nombres").
Proof. reflexivity. Qed.

(* ================================================================= *)
(** ** More on the normaliser *)

Lemma field_inv k x v : field k x = Some v -> exists d, x = JObj d /\ assoc (lit k) d = Some v.
Proof. destruct x; simpl; try discriminate. eauto. Qed.

Lemma first_item_inv x v : first_item x = Some v -> exists rest, x = JArr (v :: rest).
Proof.
  destruct x as [| | | | | [|v' rest] |]; simpl; try discriminate.
  intros H; injection H as ->. eauto.
Qed.

(** Normalisation is: find the message at the end of the path, then read it. *)
Lemma extract_message_data_at_path w ev :
  extract_message_data w ev
  = and_then (message_at_path ev) (fun message => or_none (extract_from_message w message)).
Proof.
  destruct (message_at_path ev) as [message|] eqn:P; cbn [and_then].
  - unfold message_at_path in P.
    destruct (field "entry" ev) as [entry|] eqn:E1; [|discriminate].
    apply field_inv in E1 as (d & -> & E1). cbn [and_then] in P.
    destruct (first_item entry) as [entry0|] eqn:E2; [|discriminate].
    apply first_item_inv in E2 as (rest0 & ->). cbn [and_then] in P.
    destruct (field "changes" entry0) as [changes|] eqn:E3; [|discriminate].
    apply field_inv in E3 as (d0 & -> & E3). cbn [and_then] in P.
    destruct (first_item changes) as [changes0|] eqn:E4; [|discriminate].
    apply first_item_inv in E4 as (rest1 & ->). cbn [and_then] in P.
    destruct (field "value" changes0) as [value|] eqn:E5; [|discriminate].
    apply field_inv in E5 as (d1 & -> & E5). cbn [and_then] in P.
    destruct (field "messages" value) as [messages|] eqn:E6; [|discriminate].
    apply field_inv in E6 as (dv & -> & E6). cbn [and_then] in P.
    apply first_item_inv in P as (rest2 & ->).
    unfold extract_message_data, extract_message_data_try.
    cbn [py_get]. unfold dict_get. rewrite E1. cbn [truthy nonempty negb py_index0 py_get].
    unfold dict_get. rewrite E3. cbn [truthy nonempty negb py_index0 py_get].
    unfold dict_get. rewrite E5. cbn [py_get]. unfold dict_get. rewrite E6.
    cbn [truthy nonempty negb py_index0].
    now destruct (extract_from_message w message).
  - destruct (extract_message_data w ev) as [r|] eqn:E; [|reflexivity].
    apply extract_message_data_inv in E as (message & Hm & _). congruence.
Qed.

(** Only the first message of the first change of the first entry counts:
    two deliveries with the same message at that place normalise alike. *)
Theorem only_the_first_message_counts w ev1 ev2 :
  message_at_path ev1 = message_at_path ev2 ->
  extract_message_data w ev1 = extract_message_data w ev2.
Proof. intros H. now rewrite !extract_message_data_at_path, H. Qed.

Lemma only_the_first_message_counts_double :
  extract_message_data offline (double_delivery text_message image_message)
  = extract_message_data offline (delivery text_message).
Proof.
  apply (only_the_first_message_counts offline
           (double_delivery text_message image_message) (delivery text_message)).
  reflexivity.
Defined.

(** A text message: the body verbatim, the empty string when it is absent,
    no attachment. *)
Theorem text_body_is_kept_verbatim w raw_event dm dt :
  message_at_path raw_event = Some (JObj dm) ->
  dict_get dm "type" JNull = jstr "text" ->
  dict_get dm "text" (JObj []) = JObj dt ->
  extract_message_data w raw_event
  = Some {| msg_from := dict_get dm "from" JNull;
            msg_id := dict_get dm "id" JNull;
            msg_type := jstr "text";
            media_data := None;
            msg_text := dict_get dt "body" (jstr "") |}.
Proof.
  intros P T B. rewrite extract_message_data_at_path, P. cbn [and_then].
  unfold extract_from_message. cbn [py_get]. rewrite T, B. reflexivity.
Qed.

Lemma text_body_is_kept_verbatim_hola :
  extract_message_data offline (delivery text_message)
  = Some {| msg_from := jstr "593999"; msg_id := jstr "wamid.6"; msg_type := jstr "text";
            media_data := None; msg_text := jstr "Hola" |}.
Proof.
  apply (text_body_is_kept_verbatim offline (delivery text_message)
           [kv "from" (jstr "593999"); kv "id" (jstr "wamid.6"); kv "type" (jstr "text");
            kv "text" (JObj [kv "body" (jstr "Hola")])]
           [kv "body" (jstr "Hola")]); reflexivity.
Defined.

(** A message of any other kind (or of no kind at all) is kept, without
    attachment, with a text that embeds [str(type)]. *)
Theorem unknown_kind_is_described w raw_event dm :
  message_at_path raw_event = Some (JObj dm) ->
  unknown_kind (dict_get dm "type" JNull) = true ->
  extract_message_data w raw_event
  = Some {| msg_from := dict_get dm "from" JNull;
            msg_id := dict_get dm "id" JNull;
            msg_type := dict_get dm "type" JNull;
            media_data := None;
            msg_text := JStr (lit "❓ Usuario envió un mensaje de tipo: "
                                ++ py_str w (dict_get dm "type" JNull)) |}.
Proof.
  intros P U. rewrite extract_message_data_at_path, P. cbn [and_then].
  unfold extract_from_message. cbn [py_get].
  unfold unknown_kind, attachment_kind in U. apply negb_true_iff in U.
  repeat match goal with
         | H : _ || _ = false |- _ => apply orb_false_iff in H; destruct H
         end.
  repeat match goal with H : is_str _ _ = false |- _ => rewrite H; clear H end.
  reflexivity.
Qed.

Lemma unknown_kind_is_described_reaction :
  extract_message_data offline (delivery reaction_message)
  = Some {| msg_from := jstr "593999"; msg_id := jstr "wamid.9";
            msg_type := jstr "reaction"; media_data := None;
            msg_text := jstr "❓ Usuario envió un mensaje de tipo: reaction" |}.
Proof.
  apply (unknown_kind_is_described offline (delivery reaction_message)
           [kv "from" (jstr "593999"); kv "id" (jstr "wamid.9");
            kv "type" (jstr "reaction")]); reflexivity.
Defined.

Lemma handle_webhook_no_message w ev :
  extract_message_data w ev = None ->
  handle_webhook w (Ok ev) = (JSONResponse 200 status_ok, []).
Proof.
  intros E. unfold handle_webhook, handle_webhook_try. cbn [lift bind]. now rewrite E.
Qed.

(** When the object kept under the kind's own name is there but is not a
    dict, the message is dropped: normalisation gives [None] and the handler
    answers ok without calling anything. *)
Theorem malformed_kind_object_is_dropped w raw_event dm kind v :
  message_at_path raw_event = Some (JObj dm) ->
  dict_get dm "type" JNull = JStr kind ->
  In kind object_kinds ->
  assoc kind dm = Some v ->
  (forall d, v <> JObj d) ->
  extract_message_data w raw_event = None
  /\ handle_webhook w (Ok raw_event)
     = (JSONResponse 200 (JObj [(lit "status", JStr (lit "ok"))]), []).
Proof.
  intros P T K A V.
  assert (E : extract_message_data w raw_event = None).
  { rewrite extract_message_data_at_path, P. cbn [and_then].
    unfold extract_from_message. cbn [py_get]. rewrite T.
    assert (G : forall k dflt, kind = lit k -> py_get (dict_get dm k dflt) = py_get v).
    { intros k dflt ->. unfold dict_get. now rewrite A. }
    assert (R : forall k dflt, py_get v k dflt
                = raise_of AttributeError
                    (lit "'" ++ type_name v ++ lit "' object has no attribute 'get'")).
    { intros k dflt. destruct v; try reflexivity. now destruct (V fields). }
    cbn in K.
    destruct K as [<-|[<-|[<-|[<-|[<-|[<-|[]]]]]]];
      vm_compute is_str; cbv iota;
      match goal with
      | |- context [py_get (dict_get dm ?k ?dflt)] => rewrite (G k dflt eq_refl)
      end; rewrite R; reflexivity. }
  split; [exact E | now apply handle_webhook_no_message].
Qed.

Lemma malformed_kind_object_is_dropped_image :
  extract_message_data offline (delivery broken_image_message) = None
  /\ handle_webhook offline (Ok (delivery broken_image_message))
     = (JSONResponse 200 (JObj [(lit "status", JStr (lit "ok"))]), []).
Proof.
  apply (malformed_kind_object_is_dropped offline (delivery broken_image_message)
           [kv "from" (jstr "593999"); kv "id" (jstr "wamid.10"); kv "type" (jstr "image");
            kv "image" (jstr "media-7")]
           (lit "image") (jstr "media-7")).
  - reflexivity.
  - reflexivity.
  - vm_compute. auto.
  - reflexivity.
  - discriminate.
Defined.

(* ================================================================= *)
(** ** More on the senders *)

Lemma post_payload_outcome w payload :
  post_payload w payload
  = (Ok match requests_post w payload with
        | Responded r => negb (raises_for_status r)
        | RequestException => false
        end,
     [HttpPost (WHATSAPP_API_URL w) payload]).
Proof.
  unfold post_payload, http_post.
  destruct (requests_post w payload) as [r|]; cbn; [|reflexivity].
  unfold raise_for_status. now destruct (raises_for_status r).
Qed.

Lemma delivered_iff outcome :
  match outcome with
  | Responded r => negb (raises_for_status r)
  | RequestException => false
  end = true
  <-> exists r, outcome = Responded r
                /\ ((status_code r < 400)%Z \/ (600 <= status_code r)%Z).
Proof.
  destruct outcome as [r|].
  - unfold raises_for_status. split.
    + intros H. exists r. split; [reflexivity|].
      apply negb_true_iff, andb_false_iff in H as [H|H];
        [apply Z.leb_gt in H | apply Z.ltb_ge in H]; lia.
    + intros (r' & E & H). injection E as <-.
      apply negb_true_iff, andb_false_iff.
      destruct H as [H|H]; [left; apply Z.leb_gt | right; apply Z.ltb_ge]; lia.
  - split; [discriminate | intros (r & E & _); discriminate E].
Qed.

(** [send_whatsapp_message] never raises; it makes one post, to the
    messages endpoint of the configured phone number, of a text payload with
    the recipient and the body; it returns [True] exactly when the platform
    answered with a status outside 400-599. *)
Theorem send_whatsapp_message_reports_delivery w to_phone message :
  exists ok,
    send_whatsapp_message w to_phone message
    = (Ok ok,
       [HttpPost
          (lit "https://graph.facebook.com/v22.0/" ++ PHONE_NUMBER_ID w ++ lit "/messages")
          (JObj [(lit "messaging_product", JStr (lit "whatsapp")); (lit "to", to_phone);
                 (lit "type", JStr (lit "text"));
                 (lit "text", JObj [(lit "body", JStr message)])])])
    /\ (ok = true
        <-> exists r,
              requests_post w
                (JObj [(lit "messaging_product", JStr (lit "whatsapp")); (lit "to", to_phone);
                       (lit "type", JStr (lit "text"));
                       (lit "text", JObj [(lit "body", JStr message)])])
              = Responded r
              /\ ((status_code r < 400)%Z \/ (600 <= status_code r)%Z)).
Proof.
  unfold send_whatsapp_message. rewrite post_payload_outcome.
  eexists. split; [reflexivity|]. apply delivered_iff.
Qed.

(** [send_whatsapp_media] with a type it does not know returns [False]
    and posts nothing. *)
Theorem unsupported_media_type_is_not_sent w to_phone media_type media_id caption :
  ~ In media_type [lit "sticker"; lit "image"; lit "audio"; lit "document"] ->
  send_whatsapp_media w to_phone media_type media_id caption = (Ok false, []).
Proof.
  intros N. unfold send_whatsapp_media, media_payload.
  assert (F : forall k, In k [lit "sticker"; lit "image"; lit "audio"; lit "document"] ->
              pystr_eqb media_type k = false).
  { intros k I. destruct (pystr_eqb media_type k) eqn:E; [|reflexivity].
    apply pystr_eqb_eq in E. subst. contradiction. }
  rewrite !F by (cbn; auto 6). reflexivity.
Qed.

Lemma unsupported_media_type_is_not_sent_video :
  send_whatsapp_media (answering (lit "Hola")) (jstr "593999") (lit "video")
    (jstr "media-1") (lit "mira")
  = (Ok false, []).
Proof.
  apply unsupported_media_type_is_not_sent.
  vm_compute. intros [H|[H|[H|[H|[]]]]]; discriminate H.
Defined.

(** [send_whatsapp_media] with a supported type makes one post whose
    payload names the recipient, the type and, under the type, the media
    id; the caption is there only for an image or a document, and only when
    it is not empty. *)
Theorem media_payload_caption_rule w to_phone media_type media_id caption :
  In media_type [lit "sticker"; lit "image"; lit "audio"; lit "document"] ->
  exists ok payload inner,
    send_whatsapp_media w to_phone media_type media_id caption
    = (Ok ok,
       [HttpPost
          (lit "https://graph.facebook.com/v22.0/" ++ PHONE_NUMBER_ID w ++ lit "/messages")
          payload])
    /\ field "messaging_product" payload = Some (JStr (lit "whatsapp"))
    /\ field "to" payload = Some to_phone
    /\ field "type" payload = Some (JStr media_type)
    /\ match payload with JObj d => assoc media_type d | _ => None end = Some (JObj inner)
    /\ assoc (lit "id") inner = Some media_id
    /\ payload_caption media_type payload
       = if (pystr_eqb media_type (lit "image") || pystr_eqb media_type (lit "document"))
            && nonempty caption
         then Some (JStr caption) else None.
Proof.
  intros I. unfold send_whatsapp_media. cbn in I.
  destruct I as [<-|[<-|[<-|[<-|[]]]]]; cbn;
    rewrite post_payload_outcome;
    try (destruct (nonempty caption) eqn:C);
    eexists; eexists; eexists; repeat split; reflexivity.
Qed.

Lemma media_payload_caption_rule_sticker :
  exists ok payload inner,
    send_whatsapp_media offline (jstr "593999") (lit "sticker") (jstr "media-5")
      (lit "ignored")
    = (Ok ok,
       [HttpPost
          (lit "https://graph.facebook.com/v22.0/" ++ PHONE_NUMBER_ID offline
             ++ lit "/messages")
          payload])
    /\ field "messaging_product" payload = Some (JStr (lit "whatsapp"))
    /\ field "to" payload = Some (jstr "593999")
    /\ field "type" payload = Some (JStr (lit "sticker"))
    /\ match payload with JObj d => assoc (lit "sticker") d | _ => None end
       = Some (JObj inner)
    /\ assoc (lit "id") inner = Some (jstr "media-5")
    /\ payload_caption (lit "sticker") payload = None.
Proof.
  apply (media_payload_caption_rule offline (jstr "593999") (lit "sticker")
           (jstr "media-5") (lit "ignored")).
  vm_compute. auto.
Defined.

(** [send_whatsapp_location] makes one post of a location payload that
    always has the two coordinates, and has the name and the address
    exactly when they are truthy. *)
Theorem location_payload_optional_fields w to_phone latitude longitude name address :
  exists ok payload location,
    send_whatsapp_location w to_phone latitude longitude name address
    = (Ok ok,
       [HttpPost
          (lit "https://graph.facebook.com/v22.0/" ++ PHONE_NUMBER_ID w ++ lit "/messages")
          payload])
    /\ field "messaging_product" payload = Some (JStr (lit "whatsapp"))
    /\ field "to" payload = Some to_phone
    /\ field "type" payload = Some (JStr (lit "location"))
    /\ field "location" payload = Some (JObj location)
    /\ assoc (lit "latitude") location = Some (JFloat latitude)
    /\ assoc (lit "longitude") location = Some (JFloat longitude)
    /\ assoc (lit "name") location = (if truthy name then Some name else None)
    /\ assoc (lit "address") location = (if truthy address then Some address else None).
Proof.
  unfold send_whatsapp_location. rewrite post_payload_outcome. unfold location_payload.
  destruct (truthy name), (truthy address);
    eexists; eexists; eexists; repeat split; reflexivity.
Qed.

(** [POST /test-whatsapp] never raises; it makes the one text post and
    answers with the outcome, the number, the message and the endpoint. *)
Theorem test_endpoint_reports_delivery w phone_number message :
  exists success,
    test_whatsapp_message w phone_number message
    = (Ok (JObj [(lit "success", JBool success);
                 (lit "phone_number", JStr phone_number);
                 (lit "message", JStr message);
                 (lit "whatsapp_api_url",
                  JStr (lit "https://graph.facebook.com/v22.0/" ++ PHONE_NUMBER_ID w
                          ++ lit "/messages"))]),
       [HttpPost
          (lit "https://graph.facebook.com/v22.0/" ++ PHONE_NUMBER_ID w ++ lit "/messages")
          (JObj [(lit "messaging_product", JStr (lit "whatsapp"));
                 (lit "to", JStr phone_number); (lit "type", JStr (lit "text"));
                 (lit "text", JObj [(lit "body", JStr message)])])])
    /\ (success = true
        <-> exists r,
              requests_post w
                (JObj [(lit "messaging_product", JStr (lit "whatsapp"));
                       (lit "to", JStr phone_number); (lit "type", JStr (lit "text"));
                       (lit "text", JObj [(lit "body", JStr message)])])
              = Responded r
              /\ ((status_code r < 400)%Z \/ (600 <= status_code r)%Z)).
Proof.
  unfold test_whatsapp_message, send_whatsapp_message. rewrite post_payload_outcome.
  eexists. split; [reflexivity|]. apply delivered_iff.
Qed.

(* ================================================================= *)
(** ** More on the media fetcher *)

(** The URL of the first step. *)
Lemma download_media_file_calls w media_id :
  exists file_base64 more,
    download_media_file w media_id
    = (Ok file_base64,
       HttpGet (JStr (lit "https://graph.facebook.com/v22.0/" ++ py_str w media_id)) :: more)
    /\ (length more <= 1)%nat /\ forallb is_get more = true.
Proof.
  unfold download_media_file, http_get.
  destruct (requests_get w _) as [r|]; cbn; [|eexists; exists []; auto].
  unfold raise_for_status. destruct (raises_for_status r); cbn; [eexists; exists []; auto|].
  unfold response_body. destruct (response_json r) as [body|]; cbn;
    [|eexists; exists []; auto].
  destruct (py_get body "url" JNull) as [file_url|]; cbn; [|eexists; exists []; auto].
  destruct (truthy file_url); cbn; [|eexists; exists []; auto].
  destruct (requests_get w file_url) as [r'|]; cbn; [|eexists; eexists; auto].
  destruct (raises_for_status r'); cbn; eexists; eexists; auto.
Qed.

(** [download_media_file] returns a string only when both steps went
    through: the metadata answered without error with a dict whose ["url"]
    is truthy, and that URL answered without error; the string is then the
    base64 of the bytes received, and exactly two GETs were made. *)
Theorem download_succeeds_only_through_both_steps w media_id file_base64 :
  fst (download_media_file w media_id) = Ok (Some file_base64) ->
  exists url_response body file_url file_response,
    requests_get w (JStr (lit "https://graph.facebook.com/v22.0/" ++ py_str w media_id))
    = Responded url_response
    /\ raises_for_status url_response = false
    /\ response_json url_response = Some (JObj body)
    /\ assoc (lit "url") body = Some file_url /\ truthy file_url = true
    /\ requests_get w file_url = Responded file_response
    /\ raises_for_status file_response = false
    /\ file_base64 = b64encode (response_content file_response)
    /\ snd (download_media_file w media_id)
       = [HttpGet (JStr (lit "https://graph.facebook.com/v22.0/" ++ py_str w media_id));
          HttpGet file_url].
Proof.
  unfold download_media_file, http_get.
  destruct (requests_get w (JStr _)) as [r|] eqn:G1; cbn; [|discriminate].
  unfold raise_for_status. destruct (raises_for_status r) eqn:S1; cbn; [discriminate|].
  unfold response_body. destruct (response_json r) as [body|] eqn:J; cbn; [|discriminate].
  destruct body as [| | | | | |body]; cbn [py_get lift bind raise_of]; try discriminate.
  remember (dict_get body "url" JNull) as file_url eqn:U.
  destruct (truthy file_url) eqn:T; cbn; [|discriminate].
  destruct (requests_get w file_url) as [r'|] eqn:G2; cbn; [|discriminate].
  destruct (raises_for_status r') eqn:S2; cbn; [discriminate|].
  intros H. injection H as <-.
  exists r, body, file_url, r'.
  repeat split; auto.
  apply (dict_get_found _ _ _ _ U).
  intros ->. discriminate T.
Qed.

Lemma download_succeeds_only_through_both_steps_sample :
  exists url_response body file_url file_response,
    requests_get (answering (lit "Hola"))
      (JStr (lit "https://graph.facebook.com/v22.0/"
               ++ py_str (answering (lit "Hola")) (jstr "media-7")))
    = Responded url_response
    /\ raises_for_status url_response = false
    /\ response_json url_response = Some (JObj body)
    /\ assoc (lit "url") body = Some file_url /\ truthy file_url = true
    /\ requests_get (answering (lit "Hola")) file_url = Responded file_response
    /\ raises_for_status file_response = false
    /\ lit "aGk=" = b64encode (response_content file_response)
    /\ snd (download_media_file (answering (lit "Hola")) (jstr "media-7"))
       = [HttpGet (JStr (lit "https://graph.facebook.com/v22.0/"
                           ++ py_str (answering (lit "Hola")) (jstr "media-7")));
          HttpGet file_url].
Proof.
  apply (download_succeeds_only_through_both_steps (answering (lit "Hola"))
           (jstr "media-7") (lit "aGk=")).
  reflexivity.
Defined.

(** The download step of the handler changes nothing but ["base64"], and
    sets it only to the non-empty string the download returned. *)
Theorem fetch_media_only_adds_base64 w d d' :
  fst (fetch_media w (Some d)) = Ok (Some d') ->
  (forall k, k <> lit "base64" -> assoc k d' = assoc k d)
  /\ (assoc (lit "base64") d' = assoc (lit "base64") d
      \/ exists b, b <> [] /\ downloadable d = true
                   /\ fst (download_media_file w (dict_get d "id" JNull)) = Ok (Some b)
                   /\ assoc (lit "base64") d' = Some (JStr b)).
Proof.
  cbn [fetch_media]. destruct (downloadable d) eqn:D.
  2:{ intros H. injection H as <-. auto. }
  destruct (download_media_file_run w (dict_get d "id" JNull)) as (fb & calls & E & _).
  rewrite E. cbn [bind fst].
  destruct fb as [b|]; [destruct b as [|c b]|]; cbn;
    intros H; injection H as <-; auto.
  split.
  - intros k Hk. apply assoc_dict_set_other.
    destruct (pystr_eqb (lit "base64") k) eqn:Q; [|exact Q].
    apply pystr_eqb_eq in Q. subst k. exact (False_ind _ (Hk eq_refl)).
  - right. exists (c :: b). rewrite assoc_dict_set_same. repeat split; auto. discriminate.
Qed.

Lemma fetch_media_only_adds_base64_sample :
  (forall k, k <> lit "base64" ->
     assoc k [kv "type" (jstr "image"); kv "id" (jstr "media-7"); kv "base64" (jstr "aGk=")]
     = assoc k [kv "type" (jstr "image"); kv "id" (jstr "media-7")])
  /\ (assoc (lit "base64")
        [kv "type" (jstr "image"); kv "id" (jstr "media-7"); kv "base64" (jstr "aGk=")]
      = assoc (lit "base64") [kv "type" (jstr "image"); kv "id" (jstr "media-7")]
      \/ exists b, b <> [] /\ downloadable [kv "type" (jstr "image"); kv "id" (jstr "media-7")]
                               = true
                   /\ fst (download_media_file (answering (lit "Hola"))
                             (dict_get [kv "type" (jstr "image"); kv "id" (jstr "media-7")]
                                "id" JNull)) = Ok (Some b)
                   /\ assoc (lit "base64")
                        [kv "type" (jstr "image"); kv "id" (jstr "media-7");
                         kv "base64" (jstr "aGk=")] = Some (JStr b)).
Proof.
  apply (fetch_media_only_adds_base64 (answering (lit "Hola"))
           [kv "type" (jstr "image"); kv "id" (jstr "media-7")]).
  reflexivity.
Defined.

Lemma b64_char_alphabet n :
  let c := b64_char n in
  ((65 <= c <= 90) \/ (97 <= c <= 122) \/ (48 <= c <= 57) \/ c = 43 \/ c = 47)%N.
Proof.
  unfold b64_char.
  destruct (n <? 26)%N eqn:A; [apply N.ltb_lt in A; lia|]. apply N.ltb_ge in A.
  destruct (n <? 52)%N eqn:B; [apply N.ltb_lt in B; lia|]. apply N.ltb_ge in B.
  destruct (n <? 62)%N eqn:C; [apply N.ltb_lt in C; lia|].
  destruct (n =? 62)%N; lia.
Qed.

Lemma b64_groups_spec bs :
  length (b64_groups bs) = (4 * ((length bs + 2) / 3))%nat
  /\ Forall b64_alphabet (b64_groups bs).
Proof.
  assert (A : forall n, b64_alphabet (b64_char n)).
  { intros n. pose proof (b64_char_alphabet n) as H. cbv zeta in H. unfold b64_alphabet. lia. }
  assert (P : b64_alphabet 61%N) by (unfold b64_alphabet; lia).
  assert (G : forall n bs, (length bs <= n)%nat ->
              length (b64_groups bs) = (4 * ((length bs + 2) / 3))%nat
              /\ Forall b64_alphabet (b64_groups bs)).
  { induction n as [|n IH]; intros l L.
    - destruct l; [|simpl in L; lia]. split; [reflexivity | constructor].
    - destruct l as [|a [|b [|c rest]]].
      + split; [reflexivity | constructor].
      + split; [reflexivity | ]. repeat (apply Forall_cons; [first [apply A | exact P]|]). apply Forall_nil.
      + split; [reflexivity | ]. repeat (apply Forall_cons; [first [apply A | exact P]|]). apply Forall_nil.
      + destruct (IH rest) as [IL IA]; [simpl in L; lia|].
        change (b64_groups (a :: b :: c :: rest))
          with ([b64_char (a / 4); b64_char ((a mod 4) * 16 + b / 16);
                 b64_char ((b mod 16) * 4 + c / 64); b64_char (c mod 64)]%N
                  ++ b64_groups rest).
        split.
        * rewrite length_app, IL. cbn [length].
          replace (S (S (S (length rest))) + 2)%nat with (1 * 3 + (length rest + 2))%nat by lia.
          rewrite Nat.div_add_l by lia. lia.
        * apply Forall_app. split; [|exact IA].
          repeat (apply Forall_cons; [apply A|]). apply Forall_nil. }
  apply (G (length bs)). lia.
Qed.

(** The base64 text has four characters for every three bytes (rounded
    up), all from the base64 alphabet, and is empty only for no bytes. *)
Theorem b64encode_length_and_alphabet content :
  length (b64encode content) = (4 * ((length content + 2) / 3))%nat
  /\ Forall b64_alphabet (b64encode content)
  /\ (b64encode content = [] <-> content = []).
Proof.
  unfold b64encode.
  destruct (b64_groups_spec (map Byte.to_N content)) as [L A].
  rewrite length_map in L. split; [exact L|]. split; [exact A|].
  split.
  - intros E. rewrite E in L. destruct content; [reflexivity|]. cbn [length] in L.
    assert (1 <= (S (length content) + 2) / 3)%nat.
    { apply Nat.div_le_lower_bound; lia. }
    lia.
  - intros ->. reflexivity.
Qed.

(* ================================================================= *)
(** ** More on the POST handler *)

Lemma build_input_well_formed w message media_data :
  well_formed_attachment media_data = true ->
  exists input_data, build_input w message media_data = Ok input_data.
Proof.
  intros WF. unfold build_input. destruct (wants_image_input media_data); [eauto|].
  destruct (enrichment_well_formed w media_data WF) as (extra & ->). eauto.
Qed.

(** On a normalised attachment the media leg posts at most once, and only
    to the phone it was given. *)
Lemma resend_media_posts w phone reply t media_data :
  normal_form t media_data ->
  exists ok,
    resend_media w phone reply media_data = (Ok ok, [])
    \/ exists payload,
         resend_media w phone reply media_data
         = (Ok ok, [HttpPost (WHATSAPP_API_URL w) payload])
         /\ field "to" payload = Some phone.
Proof.
  intros NF. destruct NF as [|id ? ?|id ? ?|id ?|id fn ? ?| | |];
    try (exists true; left; reflexivity).
  all: unfold resend_media; cbn.
  all: destruct (truthy id); [|exists true; left; reflexivity].
  all: rewrite post_payload_outcome.
  all: eexists; right; eexists; split; reflexivity.
Qed.

(** The calls of one run, in order: the download, one completion request,
    the text post, the media leg. *)
Lemma handle_webhook_calls w ev m :
  extract_message_data w ev = Some m ->
  exists media_data' input_data,
    fst (fetch_media w (media_data m)) = Ok media_data'
    /\ build_input w (msg_text m) media_data' = Ok input_data
    /\ let reply := match responses_create w input_data with
                    | AiResponse (Some output_text) => strip output_text
                    | _ => APOLOGY
                    end in
       snd (handle_webhook w (Ok ev))
       = snd (fetch_media w (media_data m))
           ++ [AiCreate input_data;
               HttpPost (WHATSAPP_API_URL w) (text_payload (msg_from m) reply)]
           ++ snd (resend_media w (msg_from m) reply (media_data m)).
Proof.
  intros E.
  destruct (handle_webhook_run w ev m E)
    as (md' & gets & reply & ok & posts & F & C & R & _ & H).
  assert (WF : well_formed_attachment md' = true).
  { apply (fetched_attachment_well_formed w ev m md' E). now rewrite F. }
  destruct (build_input_well_formed w (msg_text m) md' WF) as (inp & B).
  exists md', inp. split; [now rewrite F|]. split; [exact B|]. cbv zeta.
  destruct (composer_run w (msg_text m) md') as (reply' & C' & V).
  rewrite C' in C. cbn [fst] in C. injection C as ->.
  rewrite B in V, C'. rewrite <- V.
  assert (R' : snd (resend_media w (msg_from m) reply (media_data m)) = posts).
  { destruct (fetch_media_run w (media_data m)) as (md'' & gets' & F' & _ & _ & K).
    rewrite F in F'. injection F' as <- <-.
    destruct K as [-> | (d & b & Hd & D & ->)]; [now rewrite R|].
    rewrite resend_media_set_base64 in R by now apply downloadable_nonempty.
    rewrite Hd. exact (f_equal snd R). }
  rewrite handle_webhook_of_try, H, F, C', R'. reflexivity.
Qed.

Lemma fetch_media_calls w media_data :
  forallb is_get (snd (fetch_media w media_data)) = true
  /\ (length (snd (fetch_media w media_data)) <= 2)%nat.
Proof.
  destruct media_data as [d|]; cbn; [|auto].
  destruct (downloadable d); cbn; [|auto].
  destruct (download_media_file_calls w (dict_get d "id" JNull)) as (fb & more & -> & L & G).
  cbn. destruct fb as [b|]; [destruct (nonempty b)|]; cbn; rewrite app_nil_r;
    cbn; split; auto; lia.
Qed.

(** Every event that carries a message costs at most two GETs, then
    exactly one completion request, then exactly one text post to the
    sender, then at most one more post. *)
Theorem handler_calls_in_order w raw_event m :
  extract_message_data w raw_event = Some m ->
  exists gets input_data reply posts,
    snd (handle_webhook w (Ok raw_event))
    = gets
        ++ [AiCreate input_data;
            HttpPost
              (lit "https://graph.facebook.com/v22.0/" ++ PHONE_NUMBER_ID w
                 ++ lit "/messages")
              (JObj [(lit "messaging_product", JStr (lit "whatsapp"));
                     (lit "to", msg_from m); (lit "type", JStr (lit "text"));
                     (lit "text", JObj [(lit "body", JStr reply)])])]
        ++ posts
    /\ forallb is_get gets = true /\ (length gets <= 2)%nat
    /\ forallb is_post posts = true /\ (length posts <= 1)%nat.
Proof.
  intros E.
  destruct (handle_webhook_calls w raw_event m E) as (md' & inp & _ & _ & H).
  cbv zeta in H. rewrite H.
  destruct (fetch_media_calls w (media_data m)) as [G L].
  pose proof (extract_message_data_normal _ _ _ E) as NF.
  eexists; eexists; eexists; eexists. split; [reflexivity|].
  split; [exact G|]. split; [exact L|].
  match goal with |- context [resend_media w ?p ?r ?md] =>
    destruct (resend_media_posts w p r _ md NF) as (ok & [-> | (payload & -> & _)])
  end; cbn; auto.
Qed.

Lemma handler_calls_in_order_image :
  exists m gets input_data reply posts,
    extract_message_data (answering (lit "Hola")) (delivery image_message) = Some m
    /\ snd (handle_webhook (answering (lit "Hola")) (Ok (delivery image_message)))
       = gets
           ++ [AiCreate input_data;
               HttpPost
                 (lit "https://graph.facebook.com/v22.0/"
                    ++ PHONE_NUMBER_ID (answering (lit "Hola")) ++ lit "/messages")
                 (JObj [(lit "messaging_product", JStr (lit "whatsapp"));
                        (lit "to", msg_from m); (lit "type", JStr (lit "text"));
                        (lit "text", JObj [(lit "body", JStr reply)])])]
           ++ posts
    /\ forallb is_get gets = true /\ (length gets <= 2)%nat
    /\ forallb is_post posts = true /\ (length posts <= 1)%nat.
Proof.
  eexists.
  destruct (handler_calls_in_order (answering (lit "Hola")) (delivery image_message) _
              eq_refl) as (gets & inp & reply & posts & H).
  exists gets, inp, reply, posts. split; [reflexivity | exact H].
Defined.

(** The handler never posts to anyone but the sender of the message. *)
Theorem handler_posts_only_to_sender w raw_event m payload :
  extract_message_data w raw_event = Some m ->
  In payload (posted (snd (handle_webhook w (Ok raw_event)))) ->
  field "to" payload = Some (msg_from m).
Proof.
  intros E I.
  destruct (handle_webhook_calls w raw_event m E) as (md' & inp & _ & _ & H).
  cbv zeta in H. rewrite H in I. clear H.
  rewrite !posted_app in I.
  rewrite (posted_gets _ (proj1 (fetch_media_calls w (media_data m)))) in I.
  pose proof (extract_message_data_normal _ _ _ E) as NF.
  match type of I with context [resend_media w ?p ?r ?md] =>
    destruct (resend_media_posts w p r _ md NF) as (ok & [R | (p' & R & T)]);
      rewrite R in I
  end; cbn in I.
  - destruct I as [<-|[]]. reflexivity.
  - destruct I as [<-|[<-|[]]]; [reflexivity | exact T].
Qed.

Lemma handler_posts_only_to_sender_sticker :
  Forall (fun payload => field "to" payload = Some (jstr "593999"))
    (posted (snd (handle_webhook (answering (lit "Hola")) (Ok (delivery sticker_message)))))
  /\ length (posted (snd (handle_webhook (answering (lit "Hola"))
                            (Ok (delivery sticker_message))))) = 2%nat.
Proof.
  split; [|reflexivity].
  apply Forall_forall. intros payload I.
  exact (handler_posts_only_to_sender (answering (lit "Hola")) (delivery sticker_message)
           {| msg_from := jstr "593999"; msg_id := jstr "wamid.8";
              msg_type := jstr "sticker";
              media_data := Some [kv "type" (jstr "sticker"); kv "id" (jstr "media-5");
                                  kv "mime_type" (jstr "image/webp");
                                  kv "animated" (JBool false)];
              msg_text := jstr "📍 Usuario envió un sticker" |}
           payload eq_refl I).
Defined.

(** When the completion service fails, the sender still gets an answer:
    the fixed apology. *)
Theorem apology_is_sent_when_completion_fails w raw_event m :
  extract_message_data w raw_event = Some m ->
  (forall input_data output_text,
     responses_create w input_data <> AiResponse (Some output_text)) ->
  In (JObj [(lit "messaging_product", JStr (lit "whatsapp"));
            (lit "to", msg_from m); (lit "type", JStr (lit "text"));
            (lit "text",
             JObj [(lit "body",
                    JStr (lit "Lo siento, tengo problemas para procesar tu solicitud ahora. Por favor intenta de nuevo más tarde."))])])
     (posted (snd (handle_webhook w (Ok raw_event)))).
Proof.
  intros E A.
  destruct (handle_webhook_calls w raw_event m E) as (md' & inp & _ & _ & H).
  cbv zeta in H. rewrite H. clear H.
  rewrite !posted_app. apply in_or_app. right. apply in_or_app. left.
  destruct (responses_create w inp) as [|[t|]] eqn:R; cbn [posted flat_map app]; cbn [In].
  - left. reflexivity.
  - now destruct (A inp t).
  - left. reflexivity.
Qed.

Lemma apology_is_sent_when_completion_fails_offline :
  In (JObj [(lit "messaging_product", JStr (lit "whatsapp"));
            (lit "to", jstr "593999"); (lit "type", JStr (lit "text"));
            (lit "text",
             JObj [(lit "body",
                    JStr (lit "Lo siento, tengo problemas para procesar tu solicitud ahora. Por favor intenta de nuevo más tarde."))])])
     (posted (snd (handle_webhook offline (Ok (delivery text_message))))).
Proof.
  apply (apology_is_sent_when_completion_fails offline (delivery text_message)
           {| msg_from := jstr "593999"; msg_id := jstr "wamid.6"; msg_type := jstr "text";
              media_data := None; msg_text := jstr "Hola" |} eq_refl).
  intros input_data output_text. discriminate.
Defined.

(** Without a truthy media id nothing is downloaded and nothing is sent
    back besides the text: the run is one completion request and one post. *)
Theorem no_media_id_no_echo w raw_event m :
  extract_message_data w raw_event = Some m ->
  (forall d, media_data m = Some d -> truthy (dict_get d "id" JNull) = false) ->
  exists input_data reply,
    snd (handle_webhook w (Ok raw_event))
    = [AiCreate input_data;
       HttpPost
         (lit "https://graph.facebook.com/v22.0/" ++ PHONE_NUMBER_ID w ++ lit "/messages")
         (JObj [(lit "messaging_product", JStr (lit "whatsapp"));
                (lit "to", msg_from m); (lit "type", JStr (lit "text"));
                (lit "text", JObj [(lit "body", JStr reply)])])].
Proof.
  intros E N.
  destruct (handle_webhook_calls w raw_event m E) as (md' & inp & _ & _ & H).
  cbv zeta in H. rewrite H. clear H.
  destruct (media_data m) as [d|] eqn:Hd.
  - specialize (N d eq_refl).
    assert (D : downloadable d = false).
    { unfold downloadable. rewrite N. now rewrite andb_false_r. }
    unfold resend_media, fetch_media. rewrite D, N, andb_false_r. cbn [snd app].
    eexists; eexists; reflexivity.
  - cbn [fetch_media resend_media ret snd app]. eexists; eexists; reflexivity.
Qed.

Lemma no_media_id_no_echo_contacts :
  exists input_data reply,
    snd (handle_webhook (answering (lit "Hola")) (Ok (delivery contacts_message)))
    = [AiCreate input_data;
       HttpPost
         (lit "https://graph.facebook.com/v22.0/"
            ++ PHONE_NUMBER_ID (answering (lit "Hola")) ++ lit "/messages")
         (JObj [(lit "messaging_product", JStr (lit "whatsapp"));
                (lit "to", jstr "593999"); (lit "type", JStr (lit "text"));
                (lit "text", JObj [(lit "body", JStr reply)])])].
Proof.
  eapply (no_media_id_no_echo (answering (lit "Hola")) (delivery contacts_message)
            {| msg_from := jstr "593999"; msg_id := jstr "wamid.3";
               msg_type := jstr "contacts";
               media_data := _; msg_text := _ |}).
  - reflexivity.
  - intros d H. injection H as <-. reflexivity.
Defined.

Lemma collect_contact_names_with_post w post contacts :
  collect_contact_names (with_post w post) contacts = collect_contact_names w contacts.
Proof.
  induction contacts as [|c rest IH]; [reflexivity|].
  cbn [collect_contact_names]. rewrite IH. reflexivity.
Qed.

Lemma extract_from_message_with_post w post message :
  extract_from_message (with_post w post) message = extract_from_message w message.
Proof.
  destruct message; try reflexivity.
  unfold extract_from_message. cbn [py_get].
  set (t := dict_get fields "type" JNull).
  destruct (is_str t "text"); [reflexivity|].
  destruct (is_str t "sticker"); [reflexivity|].
  destruct (is_str t "image"); [reflexivity|].
  destruct (is_str t "audio"); [reflexivity|].
  destruct (is_str t "document"); [reflexivity|].
  destruct (is_str t "location"); [reflexivity|].
  destruct (is_str t "contacts"); [|reflexivity].
  destruct (py_iter (dict_get fields "contacts" (JArr []))) as [items|]; [|reflexivity].
  rewrite collect_contact_names_with_post. reflexivity.
Qed.

Lemma extract_message_data_with_post w post ev :
  extract_message_data (with_post w post) ev = extract_message_data w ev.
Proof.
  rewrite !extract_message_data_at_path.
  destruct (message_at_path ev) as [message|]; [|reflexivity].
  cbn [and_then]. now rewrite extract_from_message_with_post.
Qed.

Lemma fetch_media_with_post w post media_data :
  fetch_media (with_post w post) media_data = fetch_media w media_data.
Proof. reflexivity. Qed.

Lemma api_url_with_post w post : WHATSAPP_API_URL (with_post w post) = WHATSAPP_API_URL w.
Proof. unfold WHATSAPP_API_URL. cbn [with_post PHONE_NUMBER_ID]. reflexivity. Qed.

Lemma resend_media_with_post w post phone reply t media_data :
  normal_form t media_data ->
  snd (resend_media (with_post w post) phone reply media_data)
  = snd (resend_media w phone reply media_data).
Proof.
  intros NF. destruct NF as [|id ? ?|id ? ?|id ?|id fn ? ?| | |]; try reflexivity.
  all: unfold resend_media; cbn.
  all: destruct (truthy id); [|reflexivity].
  all: rewrite !post_payload_outcome; cbn [snd]; rewrite api_url_with_post; reflexivity.
Qed.

(** Which calls a run makes does not depend on what the posts answer: a
    failed text post does not hold the media post back, nor the reverse. *)
Theorem calls_do_not_depend_on_post_outcomes w post request_json :
  snd (handle_webhook (with_post w post) request_json)
  = snd (handle_webhook w request_json).
Proof.
  destruct request_json as [ev|e]; [|reflexivity].
  destruct (extract_message_data w ev) as [m|] eqn:E.
  - assert (E' : extract_message_data (with_post w post) ev = Some m)
      by now rewrite extract_message_data_with_post.
    destruct (handle_webhook_calls w ev m E) as (md1 & inp1 & F1 & B1 & H1).
    destruct (handle_webhook_calls (with_post w post) ev m E') as (md2 & inp2 & F2 & B2 & H2).
    cbv zeta in H1, H2. rewrite H1, H2.
    rewrite fetch_media_with_post in F2 |- *. rewrite F1 in F2. injection F2 as <-.
    change (build_input (with_post w post) (msg_text m) md1)
      with (build_input w (msg_text m) md1) in B2.
    rewrite B1 in B2. injection B2 as <-.
    rewrite (resend_media_with_post w post _ _ _ _ (extract_message_data_normal _ _ _ E)).
    rewrite api_url_with_post. cbn [with_post responses_create]. reflexivity.
  - assert (E' : extract_message_data (with_post w post) ev = None)
      by now rewrite extract_message_data_with_post.
    rewrite !handle_webhook_no_message by assumption. reflexivity.
Qed.

Lemma both_posts_are_made_when_every_post_fails :
  snd (handle_webhook (with_post (answering (lit "Hola")) failing_posts)
         (Ok (delivery sticker_message)))
  = snd (handle_webhook (answering (lit "Hola")) (Ok (delivery sticker_message)))
  /\ length (posted (snd (handle_webhook (with_post (answering (lit "Hola")) failing_posts)
                            (Ok (delivery sticker_message))))) = 2%nat.
Proof.
  split; [|reflexivity].
  apply (calls_do_not_depend_on_post_outcomes (answering (lit "Hola")) failing_posts).
Defined.

(* ================================================================= *)
(** ** The wrapper, the start-up check and the health endpoint *)

(** [get_openai_response] never raises and always asks with the plain text
    prompt: the preamble followed by the message; its reply is the trimmed
    completion, or the apology when the service fails. *)
Theorem wrapper_asks_with_the_text_prompt w message :
  get_openai_response w message
  = (Ok match responses_create w
                (JStr (lit "Instrucciones del sistema: Eres un asistente útil de WhatsApp llamado WaChat Bot. Mantén las respuestas concisas y amigables. Siempre responde en español."
                         ++ [10; 10]%N ++ lit "Mensaje del usuario: " ++ py_str w message))
        with
        | AiResponse (Some output_text) => strip output_text
        | _ => lit "Lo siento, tengo problemas para procesar tu solicitud ahora. Por favor intenta de nuevo más tarde."
        end,
     [AiCreate
        (JStr (lit "Instrucciones del sistema: Eres un asistente útil de WhatsApp llamado WaChat Bot. Mantén las respuestas concisas y amigables. Siempre responde en español."
                 ++ [10; 10]%N ++ lit "Mensaje del usuario: " ++ py_str w message))]).
Proof.
  change (lit "Instrucciones del sistema: Eres un asistente útil de WhatsApp llamado WaChat Bot. Mantén las respuestas concisas y amigables. Siempre responde en español."
            ++ [10; 10]%N ++ lit "Mensaje del usuario: " ++ py_str w message)
    with (SYSTEM_PREAMBLE ++ py_str w message).
  unfold get_openai_response.
  destruct (composer_run w message None) as (reply & -> & ->).
  assert (B : build_input w message None = Ok (JStr (SYSTEM_PREAMBLE ++ py_str w message))).
  { unfold build_input. cbn [wants_image_input enrichment]. now rewrite app_nil_r. }
  rewrite B. reflexivity.
Qed.

Lemma check_required_ok getenv vars :
  check_required getenv vars = Ok tt
  <-> Forall (fun var => is_set (getenv var) = true) vars.
Proof.
  induction vars as [|var rest IH]; cbn [check_required].
  - split; [constructor | reflexivity].
  - destruct (is_set (getenv var)) eqn:S; cbn [negb].
    + rewrite IH. split; [now constructor | intros H; now inversion H].
    + split; [discriminate | intros H; inversion H; congruence].
Qed.

Lemma check_required_first getenv before var after :
  Forall (fun v => is_set (getenv v) = true) before ->
  is_set (getenv var) = false ->
  check_required getenv (before ++ var :: after)
  = raise_of ValueError (lit "La variable de entorno " ++ lit var ++ lit " es requerida").
Proof.
  intros B S. induction B as [|v before Hv B IH]; cbn [app check_required].
  - now rewrite S.
  - now rewrite Hv.
Qed.

Lemma load_settings_inv getenv s :
  load_settings getenv = Ok s ->
  is_set (verify_token s) = true /\ is_set (whatsapp_token s) = true
  /\ is_set (phone_number_id s) = true /\ is_set (openai_api_key s) = true.
Proof.
  unfold load_settings. intros H.
  destruct (check_required getenv required_vars) as [[]|e] eqn:C; [|discriminate H].
  injection H as <-. apply check_required_ok in C. unfold required_vars in C.
  apply Forall_cons_iff in C as [S1 C]. apply Forall_cons_iff in C as [S2 C].
  apply Forall_cons_iff in C as [S3 C]. apply Forall_cons_iff in C as [S4 _].
  cbn [verify_token whatsapp_token phone_number_id openai_api_key]. auto.
Qed.

(** Start-up succeeds exactly when the four variables are set and not
    empty, and then keeps their values. *)
Theorem startup_needs_the_four_variables getenv :
  (exists s, load_settings getenv = Ok s)
  <-> is_set (getenv (env_var "VERIFY_TOKEN")) = true
      /\ is_set (getenv (env_var "WHATSAPP_TOKEN")) = true
      /\ is_set (getenv (env_var "PHONE_NUMBER_ID")) = true
      /\ is_set (getenv (env_var "OPENAI_API_KEY")) = true.
Proof.
  split.
  - intros (s & H). pose proof (load_settings_inv getenv s H) as K.
    unfold load_settings in H.
    destruct (check_required getenv required_vars) as [[]|e]; [|discriminate H].
    injection H as <-. exact K.
  - intros (H1 & H2 & H3 & H4). unfold load_settings.
    assert (K : check_required getenv required_vars = Ok tt).
    { apply check_required_ok. unfold required_vars. repeat constructor; assumption. }
    rewrite K. eauto.
Qed.

(** Start-up stops at the first variable, in the order of the list, that is
    unset or empty, with a [ValueError] that names it. *)
Theorem startup_names_the_first_missing_variable getenv before var after :
  [env_var "VERIFY_TOKEN"; env_var "WHATSAPP_TOKEN"; env_var "PHONE_NUMBER_ID";
   env_var "OPENAI_API_KEY"] = before ++ var :: after ->
  Forall (fun v => is_set (getenv v) = true) before ->
  is_set (getenv var) = false ->
  load_settings getenv
  = Raise (Exn ValueError (lit "La variable de entorno " ++ lit var ++ lit " es requerida")).
Proof.
  intros L B S. unfold load_settings, required_vars. rewrite L.
  now rewrite (check_required_first getenv before var after B S).
Qed.

Lemma startup_names_the_first_missing_variable_openai :
  load_settings no_openai_key
  = Raise (Exn ValueError (lit "La variable de entorno OPENAI_API_KEY es requerida")).
Proof.
  apply (startup_names_the_first_missing_variable no_openai_key
           [env_var "VERIFY_TOKEN"; env_var "WHATSAPP_TOKEN"; env_var "PHONE_NUMBER_ID"]
           (env_var "OPENAI_API_KEY") []).
  - reflexivity.
  - repeat constructor.
  - reflexivity.
Defined.

(** Once start-up has succeeded, [GET /health] reports every variable as
    present. *)
Theorem health_is_green_after_startup getenv s :
  load_settings getenv = Ok s ->
  health_check s
  = JObj [(lit "status", JStr (lit "healthy"));
          (lit "environment_check",
           JObj [(lit "verify_token", JStr (lit "✓"));
                 (lit "whatsapp_token", JStr (lit "✓"));
                 (lit "phone_number_id", JStr (lit "✓"));
                 (lit "openai_key", JStr (lit "✓"))])].
Proof.
  intros H. destruct (load_settings_inv getenv s H) as (H1 & H2 & H3 & H4).
  unfold health_check, check_mark. now rewrite H1, H2, H3, H4.
Qed.

Lemma health_is_green_after_startup_all_set :
  health_check {| verify_token := Some (lit "value"); whatsapp_token := Some (lit "value");
                  phone_number_id := Some (lit "value");
                  openai_api_key := Some (lit "value") |}
  = JObj [(lit "status", JStr (lit "healthy"));
          (lit "environment_check",
           JObj [(lit "verify_token", JStr (lit "✓"));
                 (lit "whatsapp_token", JStr (lit "✓"));
                 (lit "phone_number_id", JStr (lit "✓"));
                 (lit "openai_key", JStr (lit "✓"))])].
Proof. apply (health_is_green_after_startup all_set). reflexivity. Defined.

(* ================================================================= *)
(** ** Trimmed names *)

Lemma lstrip_first s c : first_char (lstrip s) = Some c -> isspace c = false.
Proof.
  induction s as [|x s IH]; cbn [lstrip]; [discriminate|].
  destruct (isspace x) eqn:X; [exact IH|].
  cbn. intros H. now injection H as <-.
Qed.

Lemma lstrip_suffix s : exists pre, s = pre ++ lstrip s.
Proof.
  induction s as [|x s (pre & IH)]; cbn [lstrip]; [now exists []|].
  destruct (isspace x); [|now exists []].
  exists (x :: pre). cbn. now rewrite <- IH.
Qed.

Lemma strip_ends s :
  (forall c, first_char (strip s) = Some c -> isspace c = false)
  /\ (forall c, last_char (strip s) = Some c -> isspace c = false).
Proof.
  unfold strip, rstrip, last_char. split; intros c H.
  - destruct (lstrip_suffix (rev (lstrip s))) as (pre & E).
    apply (f_equal (@rev N)) in E. rewrite rev_involutive, rev_app_distr in E.
    destruct (rev (lstrip (rev (lstrip s)))) as [|c0 r]; [discriminate H|].
    cbn in H. injection H as ->.
    apply (lstrip_first s). rewrite E. reflexivity.
  - rewrite rev_involutive in H. now apply lstrip_first in H.
Qed.

(** Every name the loop keeps is non-empty and neither starts nor ends
    with whitespace. *)
Theorem kept_names_are_trimmed w contacts names :
  collect_contact_names w contacts = Ok names ->
  Forall (fun name =>
            name <> []
            /\ (forall c, first_char name = Some c -> isspace c = false)
            /\ (forall c, last_char name = Some c -> isspace c = false))
    names.
Proof.
  revert names. induction contacts as [|contact rest IH]; intros names H;
    cbn [collect_contact_names] in H.
  - injection H as <-. constructor.
  - destruct (contact_full_name w contact) as [n|] eqn:E; [|discriminate].
    destruct (collect_contact_names w rest) as [ns|]; [|discriminate].
    injection H as <-. specialize (IH ns eq_refl).
    destruct (nonempty n) eqn:Ne; [|exact IH].
    constructor; [|exact IH].
    apply contact_full_name_inv in E as (dc & dn & _ & _ & ->).
    split; [intros Z; rewrite Z in Ne; discriminate Ne | apply strip_ends].
Qed.

Lemma kept_names_are_trimmed_padded :
  Forall (fun name =>
            name <> []
            /\ (forall c, first_char name = Some c -> isspace c = false)
            /\ (forall c, last_char name = Some c -> isspace c = false))
    [lit "Ana Lopez"].
Proof.
  apply (kept_names_are_trimmed offline
           [JObj [kv "name" (JObj [kv "first_name" (jstr "  Ana");
                                   kv "last_name" (jstr "Lopez ")])];
            JObj [kv "name" (JObj [kv "first_name" (jstr " ")])]]).
  reflexivity.
Defined.

(* ================================================================= *)
(** ** What is sent back for each kind *)

(** The posts of a run: the text reply, then those of the media leg. *)
Lemma handler_posts w ev m :
  extract_message_data w ev = Some m ->
  exists reply,
    posted (snd (handle_webhook w (Ok ev)))
    = text_payload (msg_from m) reply
        :: posted (snd (resend_media w (msg_from m) reply (media_data m))).
Proof.
  intros E.
  destruct (handle_webhook_calls w ev m E) as (md' & inp & _ & _ & H).
  cbv zeta in H. rewrite H. eexists.
  rewrite !posted_app, (posted_gets _ (proj1 (fetch_media_calls w (media_data m)))).
  reflexivity.
Qed.

(** A message read as the given kind was found at the path with that type. *)
Lemma normalised_kind w ev m :
  extract_message_data w ev = Some m ->
  exists dm,
    message_at_path ev = Some (JObj dm)
    /\ extract_from_message w (JObj dm) = Ok m
    /\ dict_get dm "type" JNull = msg_type m.
Proof.
  intros E. apply extract_message_data_inv in E as (message & P & H).
  assert (Hobj : exists dm, message = JObj dm).
  { unfold extract_from_message in H. destruct message; try discriminate H. eauto. }
  destruct Hobj as (dm & ->).
  exists dm. split; [exact P|]. split; [exact H|].
  symmetry. now apply extract_from_message_type with (w := w).
Qed.

(** A document that carries a media id is echoed with the caption
    ["Recibí este documento: "] and its file name; the name is the one of
    the inbound message, or ["Archivo sin nombre"] when it has none. *)
Theorem document_is_echoed_with_its_name w raw_event m :
  extract_message_data w raw_event = Some m ->
  msg_type m = JStr (lit "document") ->
  exists dm doc reply,
    message_at_path raw_event = Some (JObj dm)
    /\ dict_get dm "document" (JObj []) = JObj doc
    /\ (truthy (dict_get doc "id" JNull) = true ->
        posted (snd (handle_webhook w (Ok raw_event)))
        = [JObj [(lit "messaging_product", JStr (lit "whatsapp"));
                 (lit "to", dict_get dm "from" JNull); (lit "type", JStr (lit "text"));
                 (lit "text", JObj [(lit "body", JStr reply)])];
           JObj [(lit "messaging_product", JStr (lit "whatsapp"));
                 (lit "to", dict_get dm "from" JNull); (lit "type", JStr (lit "document"));
                 (lit "document",
                  JObj [(lit "id", dict_get doc "id" JNull);
                        (lit "caption",
                         JStr (lit "Recibí este documento: "
                                 ++ py_str w (dict_get doc "filename"
                                                (JStr (lit "Archivo sin nombre")))))])]]).
Proof.
  intros E T.
  destruct (handler_posts w raw_event m E) as (reply & Hp).
  destruct (normalised_kind w raw_event m E) as (dm & P & H & Ty).
  rewrite T in Ty.
  unfold extract_from_message in H. cbn [py_get] in H. rewrite Ty in H.
  change (is_str (JStr (lit "document")) "text") with false in H.
  change (is_str (JStr (lit "document")) "sticker") with false in H.
  change (is_str (JStr (lit "document")) "image") with false in H.
  change (is_str (JStr (lit "document")) "audio") with false in H.
  change (is_str (JStr (lit "document")) "document") with true in H.
  cbv iota in H.
  destruct (dict_get dm "document" (JObj [])) as [| | | | | |doc] eqn:D; try discriminate H.
  cbn [py_get] in H. injection H as <-.
  exists dm, doc, reply. split; [exact P|]. split; [exact D|].
  intros Hid. rewrite Hp. cbn [msg_from media_data].
  unfold resend_media. cbn. rewrite Hid. rewrite post_payload_outcome. reflexivity.
Qed.

Lemma document_is_echoed_with_its_name_unnamed :
  exists reply,
    posted (snd (handle_webhook (answering (lit "Hola")) (Ok (delivery document_message))))
    = [JObj [(lit "messaging_product", JStr (lit "whatsapp"));
             (lit "to", jstr "593999"); (lit "type", JStr (lit "text"));
             (lit "text", JObj [(lit "body", JStr reply)])];
       JObj [(lit "messaging_product", JStr (lit "whatsapp"));
             (lit "to", jstr "593999"); (lit "type", JStr (lit "document"));
             (lit "document",
              JObj [(lit "id", jstr "media-3");
                    (lit "caption",
                     JStr (lit "Recibí este documento: Archivo sin nombre"))])]].
Proof.
  destruct (document_is_echoed_with_its_name (answering (lit "Hola"))
              (delivery document_message) _ eq_refl eq_refl)
    as (dm & doc & reply & P & D & H).
  injection P as <-. injection D as <-.
  exists reply. exact (H eq_refl).
Defined.

(** A sticker or an audio that carries a media id is echoed by id alone:
    the payload has no caption. *)
Theorem sticker_and_audio_are_echoed_bare w raw_event m kind :
  extract_message_data w raw_event = Some m ->
  msg_type m = JStr kind ->
  kind = lit "sticker" \/ kind = lit "audio" ->
  exists dm obj reply,
    message_at_path raw_event = Some (JObj dm)
    /\ match assoc kind dm with Some v => v | None => JObj [] end = JObj obj
    /\ (truthy (dict_get obj "id" JNull) = true ->
        posted (snd (handle_webhook w (Ok raw_event)))
        = [JObj [(lit "messaging_product", JStr (lit "whatsapp"));
                 (lit "to", dict_get dm "from" JNull); (lit "type", JStr (lit "text"));
                 (lit "text", JObj [(lit "body", JStr reply)])];
           JObj [(lit "messaging_product", JStr (lit "whatsapp"));
                 (lit "to", dict_get dm "from" JNull); (lit "type", JStr kind);
                 (kind, JObj [(lit "id", dict_get obj "id" JNull)])]]).
Proof.
  intros E T K.
  destruct (handler_posts w raw_event m E) as (reply & Hp).
  destruct (normalised_kind w raw_event m E) as (dm & P & H & Ty).
  rewrite T in Ty.
  unfold extract_from_message in H. cbn [py_get] in H. rewrite Ty in H.
  destruct K as [-> | ->].
  - change (is_str (JStr (lit "sticker")) "text") with false in H.
    change (is_str (JStr (lit "sticker")) "sticker") with true in H.
    cbv iota in H.
    destruct (dict_get dm "sticker" (JObj [])) as [| | | | | |obj] eqn:D; try discriminate H.
    cbn [py_get] in H. injection H as <-.
    exists dm, obj, reply. split; [exact P|]. split; [exact D|].
    intros Hid. rewrite Hp. cbn [msg_from media_data].
    unfold resend_media. cbn. rewrite Hid. rewrite post_payload_outcome. reflexivity.
  - change (is_str (JStr (lit "audio")) "text") with false in H.
    change (is_str (JStr (lit "audio")) "sticker") with false in H.
    change (is_str (JStr (lit "audio")) "image") with false in H.
    change (is_str (JStr (lit "audio")) "audio") with true in H.
    cbv iota in H.
    destruct (dict_get dm "audio" (JObj [])) as [| | | | | |obj] eqn:D; try discriminate H.
    cbn [py_get] in H. injection H as <-.
    exists dm, obj, reply. split; [exact P|]. split; [exact D|].
    intros Hid. rewrite Hp. cbn [msg_from media_data].
    unfold resend_media. cbn. rewrite Hid. rewrite post_payload_outcome. reflexivity.
Qed.

Lemma sticker_and_audio_are_echoed_bare_audio :
  exists reply,
    posted (snd (handle_webhook (answering (lit "Hola")) (Ok (delivery audio_message))))
    = [JObj [(lit "messaging_product", JStr (lit "whatsapp"));
             (lit "to", jstr "593999"); (lit "type", JStr (lit "text"));
             (lit "text", JObj [(lit "body", JStr reply)])];
       JObj [(lit "messaging_product", JStr (lit "whatsapp"));
             (lit "to", jstr "593999"); (lit "type", JStr (lit "audio"));
             (lit "audio", JObj [(lit "id", jstr "media-9")])]].
Proof.
  destruct (sticker_and_audio_are_echoed_bare (answering (lit "Hola"))
              (delivery audio_message) _ (lit "audio") eq_refl eq_refl
              (or_intror eq_refl))
    as (dm & obj & reply & P & D & H).
  injection P as <-. injection D as <-.
  exists reply. exact (H eq_refl).
Defined.

Lemma filter_ai_gets calls : forallb is_get calls = true -> filter is_ai calls = [].
Proof.
  induction calls as [|[u|u p|i] calls IH]; simpl; try discriminate; auto.
Qed.

(** For an image message the completion is asked with the image itself
    exactly when the image has a media id and its download returned bytes;
    otherwise it is asked with the bare text prompt. *)
Theorem image_input_follows_the_download w raw_event m :
  extract_message_data w raw_event = Some m ->
  msg_type m = JStr (lit "image") ->
  exists dm img input_data,
    message_at_path raw_event = Some (JObj dm)
    /\ dict_get dm "image" (JObj []) = JObj img
    /\ filter is_ai (snd (handle_webhook w (Ok raw_event))) = [AiCreate input_data]
    /\ (forall b,
          truthy (dict_get img "id" JNull) = true ->
          fst (download_media_file w (dict_get img "id" JNull)) = Ok (Some b) ->
          b <> [] ->
          input_data
          = JArr
              [JObj [(lit "role", JStr (lit "system"));
                     (lit "content",
                      JStr (lit "Eres un asistente útil de WhatsApp llamado WaChat Bot. Mantén las respuestas concisas y amigables. Puedes analizar imágenes, documentos, ubicaciones y contactos que te envíen. Siempre responde en español y de manera conversacional."))];
               JObj [(lit "role", JStr (lit "user"));
                     (lit "content", JStr (lit "📷 Usuario envió una imagen"))];
               JObj [(lit "role", JStr (lit "user"));
                     (lit "content",
                      JArr [JObj [(lit "type", JStr (lit "input_image"));
                                  (lit "image_url",
                                   JStr (lit "data:image/jpeg;base64," ++ b))]])]])
    /\ (truthy (dict_get img "id" JNull) = false
        \/ fst (download_media_file w (dict_get img "id" JNull)) = Ok None
        \/ fst (download_media_file w (dict_get img "id" JNull)) = Ok (Some []) ->
        input_data
        = JStr (lit "Instrucciones del sistema: Eres un asistente útil de WhatsApp llamado WaChat Bot. Mantén las respuestas concisas y amigables. Siempre responde en español."
                  ++ [10; 10]%N ++ lit "Mensaje del usuario: "
                  ++ lit "📷 Usuario envió una imagen")).
Proof.
  intros E T.
  destruct (handle_webhook_calls w raw_event m E) as (md' & inp & F & B & Hc).
  cbv zeta in Hc.
  assert (A : filter is_ai (snd (handle_webhook w (Ok raw_event))) = [AiCreate inp]).
  { rewrite Hc, !filter_app.
    rewrite (filter_ai_gets _ (proj1 (fetch_media_calls w (media_data m)))).
    pose proof (extract_message_data_normal _ _ _ E) as NF.
    match goal with |- context [resend_media w ?p ?r ?md] =>
      destruct (resend_media_posts w p r _ md NF) as (ok & [-> | (payload & -> & _)])
    end; reflexivity. }
  clear Hc.
  destruct (normalised_kind w raw_event m E) as (dm & P & H & Ty).
  rewrite T in Ty.
  unfold extract_from_message in H. cbn [py_get] in H. rewrite Ty in H.
  change (is_str (JStr (lit "image")) "text") with false in H.
  change (is_str (JStr (lit "image")) "sticker") with false in H.
  change (is_str (JStr (lit "image")) "image") with true in H.
  cbv iota in H.
  destruct (dict_get dm "image" (JObj [])) as [| | | | | |img] eqn:D; try discriminate H.
  cbn [py_get] in H. injection H as <-.
  cbn [media_data msg_text] in F, B.
  exists dm, img, inp. split; [exact P|]. split; [exact D|]. split; [exact A|].
  clear A E T P D Ty.
  set (id := dict_get img "id" JNull) in *.
  unfold fetch_media in F.
  assert (Dl : downloadable
                 [(lit "type", jstr "image"); (lit "id", id);
                  (lit "mime_type", dict_get img "mime_type" JNull);
                  (lit "caption", dict_get img "caption" (jstr ""))] = truthy id).
  { unfold downloadable. cbn. now rewrite andb_true_r. }
  rewrite Dl in F.
  change (dict_get [(lit "type", jstr "image"); (lit "id", id);
                    (lit "mime_type", dict_get img "mime_type" JNull);
                    (lit "caption", dict_get img "caption" (jstr ""))] "id" JNull)
    with id in F.
  destruct (truthy id) eqn:Hid.
  - destruct (download_media_file_run w id) as (fb & calls & Dn & _).
    rewrite Dn in F |- *. cbn [bind fst] in F |- *.
    destruct fb as [[|c b]|]; cbn in F; injection F as <-; cbn in B; injection B as <-.
    + split.
      * intros b _ Hb Nb. injection Hb as <-. contradiction.
      * intros _. reflexivity.
    + split.
      * intros b' _ Hb _. injection Hb as <-. reflexivity.
      * intros [K|[K|K]]; discriminate K.
    + split.
      * intros b _ Hb. discriminate Hb.
      * intros _. reflexivity.
  - cbn in F. injection F as <-. cbn in B. injection B as <-.
    split.
    + intros b K. discriminate K.
    + intros _. reflexivity.
Qed.

Lemma image_input_follows_the_download_sample :
  exists input_data,
    filter is_ai (snd (handle_webhook (answering (lit "Hola")) (Ok (delivery image_message))))
    = [AiCreate input_data]
    /\ input_data
       = JArr
           [JObj [(lit "role", JStr (lit "system"));
                  (lit "content",
                   JStr (lit "Eres un asistente útil de WhatsApp llamado WaChat Bot. Mantén las respuestas concisas y amigables. Puedes analizar imágenes, documentos, ubicaciones y contactos que te envíen. Siempre responde en español y de manera conversacional."))];
            JObj [(lit "role", JStr (lit "user"));
                  (lit "content", JStr (lit "📷 Usuario envió una imagen"))];
            JObj [(lit "role", JStr (lit "user"));
                  (lit "content",
                   JArr [JObj [(lit "type", JStr (lit "input_image"));
                               (lit "image_url",
                                JStr (lit "data:image/jpeg;base64," ++ lit "aGk="))]])]].
Proof.
  destruct (image_input_follows_the_download (answering (lit "Hola"))
              (delivery image_message) _ eq_refl eq_refl)
    as (dm & img & inp & P & D & A & Yes & _).
  injection P as <-. injection D as <-.
  exists inp. split; [exact A|].
  apply (Yes (lit "aGk=")); [reflexivity | reflexivity | discriminate].
Defined.
